(** * FitnessTracker: the derived metrics of the client screens

    The mobile client computes three things on the device: the nutrient
    totals of a logged food portion ([handleAddFood], food.tsx), the BMI
    category shown on the profile ([getBMICategory]) and the progress
    figures of the water and dashboard screens.  Everything else is REST
    traffic and layout.

    The development embeds these computations as the source writes them.
    A JavaScript number is an IEEE 754 binary64 value, so the number type
    is Rocq's primitive [float]: the arithmetic below is the arithmetic
    the screens run, rounding, signed zeros, infinities and NaN included.
    A decimal literal such as [24.9] denotes the nearest binary64 value,
    as it does in the source.
    The screens' component state is threaded explicitly, and the requests
    and alerts a handler issues are collected in a trace. *)

From Stdlib Require Import ZArith QArith Floats Bool Ascii String List Lia.
Import ListNotations.

#[local] Set Warnings "-inexact-float".
#[local] Open Scope float_scope.

(** ** JavaScript numbers and values *)

Module JS.

Definition number := float.

(** A field of a JSON response as a screen reads it: missing
    ([undefined]), [null], or a number. *)
Inductive value :=
  | Undefined
  | Null
  | Num (n : number).

(** ToNumber, applied by [/], [*] and [-] to their operands. *)
Definition ToNumber (v : value) : number :=
  match v with
  | Undefined => nan
  | Null => 0
  | Num n => n
  end.

(** ToBoolean of a number: false exactly for [+0], [-0] and [NaN]. *)
Definition truthy (n : number) : bool := negb (is_zero n || is_nan n).

Definition ToBoolean (v : value) : bool :=
  match v with
  | Num n => truthy n
  | Undefined | Null => false
  end.

(** [v || d] with a numeric default [d]. *)
Definition or_else (v : value) (d : number) : number :=
  match v with
  | Num n => if truthy n then n else d
  | Undefined | Null => d
  end.

(** [Math.min] and [Math.max] of two numbers: NaN if either is NaN, and
    [-0] counts as smaller than [+0]. *)
Definition Math_min (a b : number) : number :=
  if is_nan a || is_nan b then nan
  else if a <? b then a
  else if b <? a then b
  else if get_sign a then a else b.

Definition Math_max (a b : number) : number :=
  if is_nan a || is_nan b then nan
  else if a <? b then b
  else if b <? a then a
  else if get_sign a then b else a.

(** *** [parseFloat]

    Leading white space is skipped, then the longest prefix that is a
    decimal literal (optional sign, [Infinity] or digits with an optional
    fraction and exponent) is converted, correctly rounded; [NaN] when
    there is no such prefix.  Strings are sequences of ASCII characters
    here, so only the ASCII white space characters are recognised. *)

Definition is_digit (c : ascii) : bool :=
  ((48 <=? N_of_ascii c) && (N_of_ascii c <=? 57))%N.

Definition digit_val (c : ascii) : Z := (Z.of_N (N_of_ascii c) - 48)%Z.

Definition is_white_space (c : ascii) : bool :=
  ((9 <=? N_of_ascii c) && (N_of_ascii c <=? 13) || (N_of_ascii c =? 32))%N.

Definition is_exponent_indicator (c : ascii) : bool :=
  ((N_of_ascii c =? 101) || (N_of_ascii c =? 69))%N.

Fixpoint skip_white_space (s : string) : string :=
  match s with
  | String c r => if is_white_space c then skip_white_space r else s
  | EmptyString => s
  end.

Fixpoint span_digits (s : string) : list Z * string :=
  match s with
  | String c r =>
      if is_digit c
      then let (ds, r') := span_digits r in (digit_val c :: ds, r')
      else ([], s)
  | EmptyString => ([], s)
  end.

Definition decimal_value (ds : list Z) : Z :=
  fold_left (fun acc d => 10 * acc + d)%Z ds 0%Z.

(** The value of an exponent part at the head of [r]; [0] when [r] does
    not start with one (an indicator that no digit follows is not part
    of the literal). *)
Definition exponent_part (r : string) : Z :=
  match r with
  | String c r1 =>
      if is_exponent_indicator c then
        match r1 with
        | String "+"%char r2 => decimal_value (fst (span_digits r2))
        | String "-"%char r2 => (- decimal_value (fst (span_digits r2)))%Z
        | _ => decimal_value (fst (span_digits r1))
        end
      else 0%Z
  | EmptyString => 0%Z
  end.

(** An unsigned literal: [Infinity], or the decimal [m * 10^e]. *)
Inductive literal :=
  | LitInfinity
  | LitDecimal (m e : Z).

Definition parse_unsigned (s : string) : option literal :=
  if String.prefix "Infinity" s then Some LitInfinity
  else
    let (ip, r1) := span_digits s in
    match r1 with
    | String "."%char r2 =>
        let (fp, r3) := span_digits r2 in
        match ip, fp with
        | [], [] => None
        | _, _ =>
            Some (LitDecimal (decimal_value (ip ++ fp))
                             (exponent_part r3 - Z.of_nat (length fp)))
        end
    | _ =>
        match ip with
        | [] => None
        | _ => Some (LitDecimal (decimal_value ip) (exponent_part r1))
        end
    end.

(** The binary64 value nearest to [m * 10^e] (ties to even). *)
Definition round_decimal (m e : Z) : number :=
  match m with
  | Zpos p =>
      if (0 <=? e)%Z
      then SF2Prim (binary_normalize prec emax (Zpos p * 10 ^ e) 0 false)
      else SF2Prim (SFdiv prec emax (S754_finite false p 0)
                          (S754_finite false (Z.to_pos (10 ^ (- e))) 0))
  | _ => 0
  end.

Definition literal_value (l : option literal) : number :=
  match l with
  | Some LitInfinity => infinity
  | Some (LitDecimal m e) => round_decimal m e
  | None => nan
  end.

Definition parseFloat (s : string) : number :=
  match skip_white_space s with
  | String "-"%char r => - literal_value (parse_unsigned r)
  | String "+"%char r => literal_value (parse_unsigned r)
  | r => literal_value (parse_unsigned r)
  end.

End JS.

Import JS.

(** ** Food screen (food.tsx, [Food])

    The portion arithmetic of [handleAddFood] is written once, over the
    operations it uses, so that the same text can be read in binary64
    (what the screen runs) and in exact rational arithmetic (what its
    results approximate). *)

Module Nutrition.

Class Arith (num : Type) := {
  mul : num -> num -> num;
  div : num -> num -> num;
  hundred : num
}.

(** Binary64: the arithmetic of the running code. *)
#[export] Instance binary64 : Arith number := {
  mul := PrimFloat.mul;
  div := PrimFloat.div;
  hundred := 100
}.

(** Exact rationals. *)
#[export] Instance exact : Arith Q := {
  mul := Qmult;
  div := Qdiv;
  hundred := 100 # 1
}.

Section Portion.

Context {num : Type} `{Arith num}.

(** An item of [/api/food-database]. *)
Record FoodReference := {
  name : string;
  kcal_per_100g : num;
  proteins_per_100g : num;
  carbs_per_100g : num;
  fats_per_100g : num
}.

(** An entry of the day's food log. *)
Record FoodPortion := {
  food_name : string;
  grams : num;
  kcal : num;
  proteins : num;
  carbs : num;
  fats : num
}.

(** The [entry] object literal of [handleAddFood], with its
    [multiplier]. *)
Definition makeEntry (selectedFood : FoodReference) (gramsNum : num) : FoodPortion :=
  let multiplier := div gramsNum hundred in
  {| food_name := name selectedFood;
     grams := gramsNum;
     kcal := mul (kcal_per_100g selectedFood) multiplier;
     proteins := mul (proteins_per_100g selectedFood) multiplier;
     carbs := mul (carbs_per_100g selectedFood) multiplier;
     fats := mul (fats_per_100g selectedFood) multiplier |}.

End Portion.

Arguments FoodReference num : clear implicits.
Arguments FoodPortion num : clear implicits.

End Nutrition.

Import Nutrition.

Module FoodScreen.

(** The component state [handleAddFood] reads and writes. *)
Record State := {
  selectedDate : string;
  selectedFood : option (FoodReference number);
  grams : string;
  todayEntries : list (FoodPortion number);
  modalVisible : bool
}.

(** What a handler does to the outside: alerts, the log request and the
    console. *)
Inductive effect :=
  | Alert (title message : string)
  | PostFoodLog (date : string) (entries : list (FoodPortion number))
  | ConsoleError (message : string).

(** [handleAddFood]: [post_ok] is the outcome of the request, the one
    thing the handler awaits. *)
Definition handleAddFood (post_ok : bool) (st : State) : State * list effect :=
  match selectedFood st with
  | None => (st, [Alert "Error" "Please enter the amount in grams"])
  | Some food =>
      if String.eqb (grams st) ""
      then (st, [Alert "Error" "Please enter the amount in grams"])
      else
        let gramsNum := parseFloat (grams st) in
        let entry := makeEntry food gramsNum in
        let newEntries := todayEntries st ++ [entry] in
        if post_ok then
          ({| selectedDate := selectedDate st;
              selectedFood := None;
              grams := "";
              todayEntries := newEntries;
              modalVisible := false |},
           [PostFoodLog (selectedDate st) newEntries;
            Alert "Success" "Food added to log!"])
        else
          (st,
           [PostFoodLog (selectedDate st) newEntries;
            ConsoleError "Error adding food:";
            Alert "Error" "Failed to add food"])
  end.

(** The entries sent to the backend by a run, if any. *)
Definition posted (effs : list effect) : option (list (FoodPortion number)) :=
  match effs with
  | PostFoodLog _ entries :: _ => Some entries
  | _ => None
  end.

End FoodScreen.

(** ** Profile screen (food.tsx, [Profile]) *)

Module Profile.

(** The fields of the signed-in [User] the derived figures read. *)
Record User := {
  bmi : number;
  daily_calorie_target : number
}.

Record BMICategory := {
  text : string;
  color : string
}.

Definition getBMICategory (bmi : number) : BMICategory :=
  if bmi <? 18.5 then {| text := "Underweight"; color := "#FF9800" |}
  else if bmi <? 25 then {| text := "Normal"; color := "#4CAF50" |}
  else if bmi <? 30 then {| text := "Overweight"; color := "#FF9800" |}
  else {| text := "Obese"; color := "#F44336" |}.

(** [user ? getBMICategory(user.bmi) : null] *)
Definition bmiCategory (user : option User) : option BMICategory :=
  match user with
  | Some u => Some (getBMICategory (bmi u))
  | None => None
  end.

End Profile.

(** ** Water screen (water.tsx, [Water]) *)

Module Water.

(** The response of [/api/water-logs/{date}], as far as it is read. *)
Record WaterData := {
  total_intake : value;
  goal_ml : value
}.

Definition progress (waterData : option WaterData) : number :=
  match waterData with
  | Some w =>
      if ToBoolean (goal_ml w)
      then (ToNumber (total_intake w) / ToNumber (goal_ml w)) * 100
      else 0
  | None => 0
  end.

(** The numbers the screen renders: the height of the water level in
    percent, the number formatted by [toFixed(0)] in the bottle, and the
    two statistics. *)
Record View := {
  waterLevel_height : number;
  waterPercentage : number;
  consumed_shown : number;
  goal_shown : number
}.

Definition render (waterData : option WaterData) : View :=
  {| waterLevel_height := Math_min (progress waterData) 100;
     waterPercentage := progress waterData;
     consumed_shown :=
       match waterData with
       | Some w => or_else (total_intake w) 0
       | None => 0
       end;
     goal_shown :=
       match waterData with
       | Some w => or_else (goal_ml w) 2000
       | None => 2000
       end |}.

End Water.

(** ** Dashboard screen ([Dashboard]) *)

Module Dashboard.

Record UserPart := { daily_calorie_target : value }.
Record FoodPart := { total_kcal : value }.
Record WaterPart := { total_intake : value; goal_ml : value }.

(** The response of [/api/dashboard/{date}], as far as it is read; each
    part may be missing. *)
Record DashboardData := {
  user : option UserPart;
  food : option FoodPart;
  water : option WaterPart
}.

(** Evaluating an expression either yields a value or throws the
    TypeError of a property read on [undefined]. *)
Inductive completion (A : Type) :=
  | Return (a : A)
  | ThrowTypeError.
Arguments Return {A} a.
Arguments ThrowTypeError {A}.

(** [dashboardData?.user?.daily_calorie_target] *)
Definition target_of (dashboardData : option DashboardData) : value :=
  match dashboardData with
  | Some d =>
      match user d with
      | Some u => daily_calorie_target u
      | None => Undefined
      end
  | None => Undefined
  end.

(** The guard is optional-chained, the quotient is not:
    [dashboardData.food.total_kcal] throws when [food] is missing. *)
Definition calorieProgress (dashboardData : option DashboardData) : completion number :=
  if ToBoolean (target_of dashboardData) then
    match dashboardData with
    | Some d =>
        match food d with
        | Some f =>
            Return ((ToNumber (total_kcal f) / ToNumber (target_of dashboardData)) * 100)
        | None => ThrowTypeError
        end
    | None => ThrowTypeError
    end
  else Return 0.

(** [dashboardData?.water?.goal_ml] and [dashboardData?.water?.total_intake] *)
Definition water_goal_of (dashboardData : option DashboardData) : value :=
  match dashboardData with
  | Some d =>
      match water d with
      | Some w => goal_ml w
      | None => Undefined
      end
  | None => Undefined
  end.

Definition water_intake_of (dashboardData : option DashboardData) : value :=
  match dashboardData with
  | Some d =>
      match water d with
      | Some w => total_intake w
      | None => Undefined
      end
  | None => Undefined
  end.

Definition waterProgress (dashboardData : option DashboardData) : number :=
  if ToBoolean (water_goal_of dashboardData)
  then (ToNumber (water_intake_of dashboardData)
        / ToNumber (water_goal_of dashboardData)) * 100
  else 0.

(** [dashboardData?.food?.total_kcal] *)
Definition total_kcal_of (dashboardData : option DashboardData) : value :=
  match dashboardData with
  | Some d =>
      match food d with
      | Some f => total_kcal f
      | None => Undefined
      end
  | None => Undefined
  end.

(** [user?.daily_calorie_target] of the signed-in user. *)
Definition user_target (user : option Profile.User) : value :=
  match user with
  | Some u => Num (Profile.daily_calorie_target u)
  | None => Undefined
  end.

(** The "Remaining" figure of the calorie card. *)
Definition remaining (user : option Profile.User)
    (dashboardData : option DashboardData) : number :=
  Math_max 0 (or_else (user_target user) 0 - or_else (total_kcal_of dashboardData) 0).

(** The widths of the two progress bars, in percent, and the water goal
    the card shows. *)
Definition calorie_bar_width (dashboardData : option DashboardData) : completion number :=
  match calorieProgress dashboardData with
  | Return p => Return (Math_min p 100)
  | ThrowTypeError => ThrowTypeError
  end.

Definition water_bar_width (dashboardData : option DashboardData) : number :=
  Math_min (waterProgress dashboardData) 100.


End Dashboard.

(** ** More of the JavaScript library: strings and [parseInt] *)

Module JSText.

(** [String.prototype.toLowerCase] on ASCII text, where it maps [A-Z]
    to [a-z] and leaves every other character.  Text with characters
    outside ASCII is outside this model (there lower-casing goes by the
    Unicode case tables and by context); the statements that depend on
    lower-casing assume ASCII text. *)
Definition lower_char (c : ascii) : ascii :=
  if ((65 <=? N_of_ascii c) && (N_of_ascii c <=? 90))%N
  then ascii_of_N (N_of_ascii c + 32)
  else c.

Fixpoint toLowerCase (s : string) : string :=
  match s with
  | String c r => String (lower_char c) (toLowerCase r)
  | EmptyString => EmptyString
  end.

(** [sub] occurs at the head of [s]. *)
Fixpoint starts_with (sub s : string) : bool :=
  match sub, s with
  | EmptyString, _ => true
  | String a sub', String b s' => Ascii.eqb a b && starts_with sub' s'
  | String _ _, EmptyString => false
  end.

(** [s.includes(sub)]: [sub] occurs somewhere in [s]. *)
Fixpoint includes (s sub : string) : bool :=
  starts_with sub s ||
  match s with
  | String _ r => includes r sub
  | EmptyString => false
  end.

(** *** [parseInt] without a radix

    White space and a sign are skipped, a [0x] or [0X] prefix selects
    radix 16, and the longest run of digits of the radix is converted;
    [NaN] when there is none. *)

Definition hex_digit (c : ascii) : option Z :=
  let n := N_of_ascii c in
  if ((48 <=? n) && (n <=? 57))%N then Some (Z.of_N n - 48)%Z
  else if ((97 <=? n) && (n <=? 102))%N then Some (Z.of_N n - 87)%Z
  else if ((65 <=? n) && (n <=? 70))%N then Some (Z.of_N n - 55)%Z
  else None.

Fixpoint span_hex_digits (s : string) : list Z :=
  match s with
  | String c r =>
      match hex_digit c with
      | Some d => d :: span_hex_digits r
      | None => []
      end
  | EmptyString => []
  end.

Definition radix_value (radix : Z) (ds : list Z) : Z :=
  fold_left (fun acc d => radix * acc + d)%Z ds 0%Z.

(** The digits of the literal and its radix. *)
Definition int_digits (s : string) : Z * list Z :=
  match s with
  | String "0"%char (String x r) =>
      if ((N_of_ascii x =? 120) || (N_of_ascii x =? 88))%N
      then (16%Z, span_hex_digits r)
      else (10%Z, fst (span_digits s))
  | _ => (10%Z, fst (span_digits s))
  end.

Definition unsigned_int (s : string) : number :=
  let (radix, ds) := int_digits s in
  match ds with
  | [] => nan
  | _ => SF2Prim (binary_normalize prec emax (radix_value radix ds) 0 false)
  end.

Definition parseInt (s : string) : number :=
  match skip_white_space s with
  | String "-"%char r => - unsigned_int r
  | String "+"%char r => unsigned_int r
  | r => unsigned_int r
  end.

End JSText.

Import JSText.

(** ** Food screen: search, total and preview (food.tsx, [Food]) *)

Module FoodList.

Import FoodScreen.

(** [filteredFoods], for the database and the search text. *)
Definition filteredFoods (foodDatabase : list (FoodReference number))
    (searchQuery : string) : list (FoodReference number) :=
  filter (fun food => includes (toLowerCase (name food)) (toLowerCase searchQuery))
         foodDatabase.

(** [totalKcal]: [reduce] runs from the left, starting at 0. *)
Definition totalKcal (todayEntries : list (FoodPortion number)) : number :=
  fold_left (fun sum entry => sum + kcal entry) todayEntries 0.

(** The four numbers of the "Nutritional Info" card of the add-food
    form (each then formatted by [toFixed]); the card is there when the
    modal is open on a selected food and the grams text is not empty. *)
Record Preview := {
  calories_shown : number;
  protein_shown : number;
  carbs_shown : number;
  fats_shown : number
}.

Definition calculatedCard (st : State) : option Preview :=
  if modalVisible st then
    match selectedFood st with
    | Some food =>
        if String.eqb (FoodScreen.grams st) "" then None
        else
          Some {| calories_shown :=
                    kcal_per_100g food * (parseFloat (FoodScreen.grams st) / 100);
                  protein_shown :=
                    proteins_per_100g food * (parseFloat (FoodScreen.grams st) / 100);
                  carbs_shown :=
                    carbs_per_100g food * (parseFloat (FoodScreen.grams st) / 100);
                  fats_shown :=
                    fats_per_100g food * (parseFloat (FoodScreen.grams st) / 100) |}
    | None => None
    end
  else None.

End FoodList.

(** ** Water screen: the day's log (water.tsx, [Water])

    The log section renders [waterData.entries.reverse().map(...)].
    [reverse] works in place, on the array held in the component state,
    so a render leaves the state's array reversed for the next one. *)

Module WaterLog.

Record Entry := {
  amount_ml : number;
  time : string
}.

(** One render of the log section on the state's [entries] (missing when
    there is no data or no such field): the rows shown, top to bottom,
    and the array afterwards. *)
Definition renderLog (entries : option (list Entry))
  : list Entry * option (list Entry) :=
  match entries with
  | Some (e :: l) => (rev (e :: l), Some (rev (e :: l)))
  | Some [] => ([], Some [])
  | None => ([], None)
  end.

(** The rows shown by the render that follows [n] earlier renders of
    the same data. *)
Fixpoint shown_after (n : nat) (entries : option (list Entry)) : list Entry :=
  match n with
  | O => fst (renderLog entries)
  | S k => shown_after k (snd (renderLog entries))
  end.

End WaterLog.

(** ** Activity screen ([Activity]) *)

Module Activity.

Record FormData := {
  activity_type : string;
  duration_minutes : string;
  distance_km : string;
  calories_burned : string;
  steps : string;
  heart_rate_avg : string;
  notes : string
}.

(** The body of the request to [/api/activity-logs]. *)
Record Body := {
  date : string;
  body_activity_type : string;
  body_duration_minutes : number;
  body_distance_km : number;
  body_calories_burned : number;
  body_steps : number;
  body_heart_rate_avg : number;
  body_notes : string
}.

Record State := {
  selectedDate : string;
  modalVisible : bool;
  formData : FormData
}.

Inductive effect :=
  | Alert (title message : string)
  | PostActivityLog (body : Body)
  | LoadActivities
  | ConsoleError (message : string).

Definition emptyForm : FormData :=
  {| activity_type := "walking";
     duration_minutes := "";
     distance_km := "";
     calories_burned := "";
     steps := "";
     heart_rate_avg := "";
     notes := "" |}.

(** [handleAddActivity]; [post_ok] is the outcome of the request. *)
Definition handleAddActivity (post_ok : bool) (st : State) : State * list effect :=
  if String.eqb (duration_minutes (formData st)) ""
  then (st, [Alert "Error" "Please enter duration"])
  else
    let body :=
      {| date := selectedDate st;
         body_activity_type := activity_type (formData st);
         body_duration_minutes := parseInt (duration_minutes (formData st));
         body_distance_km := or_else (Num (parseFloat (distance_km (formData st)))) 0;
         body_calories_burned := or_else (Num (parseInt (calories_burned (formData st)))) 0;
         body_steps := or_else (Num (parseInt (steps (formData st)))) 0;
         body_heart_rate_avg := or_else (Num (parseInt (heart_rate_avg (formData st)))) 0;
         body_notes := notes (formData st) |} in
    if post_ok then
      ({| selectedDate := selectedDate st;
          modalVisible := false;
          formData := emptyForm |},
       [PostActivityLog body; LoadActivities; Alert "Success" "Activity logged!"])
    else
      (st,
       [PostActivityLog body;
        ConsoleError "Error adding activity:";
        Alert "Error" "Failed to log activity"]).

Definition posted (effs : list effect) : option Body :=
  match effs with
  | PostActivityLog body :: _ => Some body
  | _ => None
  end.

(** The activity card shows the distance line when
    [activity.distance_km > 0]. *)
Definition distance_line_shown (distance_km : number) : bool := 0 <? distance_km.

End Activity.

(** ** Authentication context (AuthContext.tsx, [AuthProvider])

    The provider holds the user and the token and keeps the token in
    the device's storage under one key.  Each awaited call (the request,
    the profile fetch, the storage operations) is settled by the
    environment: it resolves or rejects.  The token of a resolved
    request is a string, and a storage call that rejects leaves the
    stored value as it was. *)

Module Auth.

Record State := {
  user : option Profile.User;
  token : option string;
  loading : bool;
  stored : option string
}.

(** How the awaited calls of one operation settle.  A rejected request
    may carry the [detail] of the server's answer. *)
Inductive awaited (A : Type) :=
  | Resolved (a : A)
  | Rejected (detail : option string).
Arguments Resolved {A} a.
Arguments Rejected {A} detail.

Record Env := {
  request : awaited string;
  profile : awaited Profile.User;
  getItem_ok : bool;
  setItem_ok : bool;
  removeItem_ok : bool
}.

(** An operation fulfils, or throws; either way it leaves a state. *)
Inductive outcome :=
  | Fulfilled (s : State)
  | Threw (message : option string) (s : State).

Definition state_of (o : outcome) : State :=
  match o with
  | Fulfilled s | Threw _ s => s
  end.

Definition logout (env : Env) (s : State) : outcome :=
  if removeItem_ok env
  then Fulfilled {| user := None; token := None; loading := loading s; stored := None |}
  else Threw None s.

Definition fetchUserProfile (env : Env) (s : State) : outcome :=
  match profile env with
  | Resolved u =>
      Fulfilled {| user := Some u; token := token s; loading := loading s;
                   stored := stored s |}
  | Rejected _ => logout env s
  end.

(** [error.response?.data?.detail || fallback] *)
Definition error_message (detail : option string) (fallback : string) : string :=
  match detail with
  | Some d => if String.eqb d "" then fallback else d
  | None => fallback
  end.

(** The common body of [login] and [register], which differ in the
    endpoint and in the fallback message. *)
Definition authenticate (fallback : string) (env : Env) (s : State) : outcome :=
  match request env with
  | Resolved access_token =>
      if setItem_ok env then
        match fetchUserProfile env
                {| user := user s; token := Some access_token;
                   loading := loading s; stored := Some access_token |} with
        | Fulfilled s' => Fulfilled s'
        | Threw _ s' => Threw (Some fallback) s'
        end
      else Threw (Some fallback) s
  | Rejected detail => Threw (Some (error_message detail fallback)) s
  end.

Definition login : Env -> State -> outcome := authenticate "Login failed".

Definition register : Env -> State -> outcome := authenticate "Registration failed".

(** [if (token) await fetchUserProfile(token)]: an empty token is falsy. *)
Definition refreshUser (env : Env) (s : State) : outcome :=
  match token s with
  | Some t => if String.eqb t "" then Fulfilled s else fetchUserProfile env s
  | None => Fulfilled s
  end.

(** [loadStoredAuth] catches everything and ends by clearing
    [loading]. *)
Definition loadStoredAuth (env : Env) (s : State) : outcome :=
  let done (s' : State) :=
    Fulfilled {| user := user s'; token := token s'; loading := false;
                 stored := stored s' |} in
  if getItem_ok env then
    match stored s with
    | Some storedToken =>
        if String.eqb storedToken "" then done s
        else
          done (state_of (fetchUserProfile env
                  {| user := user s; token := Some storedToken;
                     loading := loading s; stored := stored s |}))
    | None => done s
    end
  else done s.

(** What the provider keeps true: a user is only held together with a
    token, and a held token is the stored one. *)
Definition consistent (s : State) : Prop :=
  (user s <> None -> token s <> None) /\
  (token s <> None -> stored s = token s).

End Auth.

(** ** Registration screen (register.tsx, [Register]) *)

Module Register.

Record FormData := {
  email : string;
  password : string;
  name : string;
  age : string;
  gender : string;
  height : string;
  weight : string;
  goal : string
}.

(** The [userData] handed to [register]: the form with its three
    figures parsed. *)
Record UserData := {
  data_email : string;
  data_password : string;
  data_name : string;
  data_age : number;
  data_gender : string;
  data_height : number;
  data_weight : number;
  data_goal : string
}.

Record State := {
  formData : FormData;
  loading : bool
}.

Inductive effect :=
  | Alert (title message : string)
  | RegisterRequest (userData : UserData)
  | RouterReplace (href : string).

(** A text field is falsy when it is empty. *)
Definition blank (s : string) : bool := String.eqb s "".

Definition missing_field (f : FormData) : bool :=
  blank (email f) || blank (password f) || blank (name f)
  || blank (age f) || blank (height f) || blank (weight f).

(** [handleRegister], on the screen's state and the provider's. *)
Definition handleRegister (env : Auth.Env) (st : State) (auth : Auth.State)
  : State * Auth.State * list effect :=
  if missing_field (formData st)
  then (st, auth, [Alert "Error" "Please fill in all fields"])
  else
    let userData :=
      {| data_email := email (formData st);
         data_password := password (formData st);
         data_name := name (formData st);
         data_age := parseInt (age (formData st));
         data_gender := gender (formData st);
         data_height := parseFloat (height (formData st));
         data_weight := parseFloat (weight (formData st));
         data_goal := goal (formData st) |} in
    let st' := {| formData := formData st; loading := false |} in
    match Auth.register env auth with
    | Auth.Fulfilled auth' =>
        (st', auth', [RegisterRequest userData; RouterReplace "/(tabs)/dashboard"])
    | Auth.Threw message auth' =>
        (st', auth',
         [RegisterRequest userData;
          Alert "Registration Failed"
                match message with Some m => m | None => "" end])
    end.

End Register.

(** ** Profile screen: editing the profile (food.tsx, [Profile]) *)

Module ProfileEdit.

Record EditData := {
  name : string;
  age : string;
  height : string;
  weight : string;
  goal : string
}.

(** The body of the request to [/api/profile]. *)
Record Body := {
  body_name : string;
  body_age : number;
  body_height : number;
  body_weight : number;
  body_goal : string
}.

Record State := {
  editModalVisible : bool;
  editData : EditData
}.

Inductive effect :=
  | Alert (title message : string)
  | PutProfile (body : Body)
  | ConsoleError (message : string).

(** [handleUpdateProfile]: [put_ok] is the outcome of the request; the
    refresh that follows is the provider's [refreshUser]. *)
Definition handleUpdateProfile (put_ok : bool) (env : Auth.Env)
    (st : State) (auth : Auth.State) : State * Auth.State * list effect :=
  let body :=
    {| body_name := name (editData st);
       body_age := parseInt (age (editData st));
       body_height := parseFloat (height (editData st));
       body_weight := parseFloat (weight (editData st));
       body_goal := goal (editData st) |} in
  if put_ok then
    match Auth.refreshUser env auth with
    | Auth.Fulfilled auth' =>
        ({| editModalVisible := false; editData := editData st |}, auth',
         [PutProfile body; Alert "Success" "Profile updated successfully!"])
    | Auth.Threw _ auth' =>
        (st, auth',
         [PutProfile body;
          ConsoleError "Error updating profile:";
          Alert "Error" "Failed to update profile"])
    end
  else
    (st, auth,
     [PutProfile body;
      ConsoleError "Error updating profile:";
      Alert "Error" "Failed to update profile"]).

End ProfileEdit.

(** ** An environment and states for the provider's statements *)

(** The backend rejects everything; the storage works. *)
Definition backend_down : Auth.Env :=
  {| Auth.request := Auth.Rejected None;
     Auth.profile := Auth.Rejected None;
     Auth.getItem_ok := true;
     Auth.setItem_ok := true;
     Auth.removeItem_ok := true |}.

Definition signed_out : Auth.State :=
  {| Auth.user := None; Auth.token := None; Auth.loading := false;
     Auth.stored := None |}.

Definition signed_in : Auth.State :=
  {| Auth.user := Some {| Profile.bmi := 20.8; Profile.daily_calorie_target := 2000 |};
     Auth.token := Some "t0k3n"%string;
     Auth.loading := false;
     Auth.stored := Some "t0k3n"%string |}.

(** A registration form whose age is still empty. *)
Definition form_without_age : Register.State :=
  {| Register.formData :=
       {| Register.email := "ann@example.org"; Register.password := "secret";
          Register.name := "Ann"; Register.age := ""; Register.gender := "female";
          Register.height := "170"; Register.weight := "60";
          Register.goal := "maintain" |};
     Register.loading := false |}.

Definition editing : ProfileEdit.State :=
  {| ProfileEdit.editModalVisible := true;
     ProfileEdit.editData :=
       {| ProfileEdit.name := "Ann"; ProfileEdit.age := "31";
          ProfileEdit.height := "170"; ProfileEdit.weight := "60";
          ProfileEdit.goal := "maintain" |} |}.

(** ** Vocabulary of the statements on the food search *)

(** Text made of ASCII characters only. *)
Definition is_ascii_char (c : ascii) : bool := (N_of_ascii c <? 128)%N.

Fixpoint is_ascii_text (s : string) : bool :=
  match s with
  | String c r => is_ascii_char c && is_ascii_text r
  | EmptyString => true
  end.

(** Two characters that are equal, or the capital and the small form of
    one letter (which are 32 apart). *)
Definition is_capital (c : ascii) : bool :=
  ((65 <=? N_of_ascii c) && (N_of_ascii c <=? 90))%N.

Definition same_letter (a b : ascii) : bool :=
  Ascii.eqb a b
  || (is_capital a && (N_of_ascii b =? N_of_ascii a + 32)%N)
  || (is_capital b && (N_of_ascii a =? N_of_ascii b + 32)%N).

(** Two texts that differ at most in the case of their letters. *)
Fixpoint case_variant (s t : string) : bool :=
  match s, t with
  | EmptyString, EmptyString => true
  | String a s', String b t' => same_letter a b && case_variant s' t'
  | _, _ => false
  end.

(** ** Vocabulary of the statements on the calorie card *)

(** The signed-in user gives no target: there is none, or the target is
    0 or NaN. *)
Inductive target_missing : option Profile.User -> Prop :=
  | no_user : target_missing None
  | no_target (u : Profile.User) :
      truthy (Profile.daily_calorie_target u) = false -> target_missing (Some u).

(** The dashboard data give no total: there are no data, no [food]
    part, or its [total_kcal] is missing, null, 0 or NaN. *)
Inductive total_missing : option Dashboard.DashboardData -> Prop :=
  | no_data : total_missing None
  | no_food (d : Dashboard.DashboardData) :
      Dashboard.food d = None -> total_missing (Some d)
  | no_total (d : Dashboard.DashboardData) (f : Dashboard.FoodPart) :
      Dashboard.food d = Some f ->
      Dashboard.total_kcal f = Undefined \/ Dashboard.total_kcal f = Null \/
      (exists n, Dashboard.total_kcal f = Num n /\ truthy n = false) ->
      total_missing (Some d).

(** ** Vocabulary of the statements on categories *)

(** The four categories in the order of their ranges. *)
Definition severity (c : Profile.BMICategory) : nat :=
  if String.eqb (Profile.text c) "Underweight" then 0
  else if String.eqb (Profile.text c) "Normal" then 1
  else if String.eqb (Profile.text c) "Overweight" then 2
  else 3.

(** ** States the statements range over *)

(** A food with the given per-100g figures, and the food screen with
    that food selected and a grams text typed in. *)
Definition per_100g (kcal_ proteins_ carbs_ fats_ : number) : FoodReference number :=
  {| name := "Rice";
     kcal_per_100g := kcal_;
     proteins_per_100g := proteins_;
     carbs_per_100g := carbs_;
     fats_per_100g := fats_ |}.

Definition adding (food : FoodReference number) (gramsText : string)
  : FoodScreen.State :=
  {| FoodScreen.selectedDate := "2024-05-01";
     FoodScreen.selectedFood := Some food;
     FoodScreen.grams := gramsText;
     FoodScreen.todayEntries := [];
     FoodScreen.modalVisible := true |}.

(** The states in which both figures of a progress ratio are numbers. *)
Definition water_state (consumed goal : number) : option Water.WaterData :=
  Some {| Water.total_intake := Num consumed; Water.goal_ml := Num goal |}.

Definition dashboard_water_state (consumed goal : number)
    (u : option Dashboard.UserPart) (f : option Dashboard.FoodPart)
  : option Dashboard.DashboardData :=
  Some {| Dashboard.user := u; Dashboard.food := f;
          Dashboard.water :=
            Some {| Dashboard.total_intake := Num consumed;
                    Dashboard.goal_ml := Num goal |} |}.

Definition dashboard_calorie_state (consumed goal : number)
    (w : option Dashboard.WaterPart) : option Dashboard.DashboardData :=
  Some {| Dashboard.user := Some {| Dashboard.daily_calorie_target := Num goal |};
          Dashboard.food := Some {| Dashboard.total_kcal := Num consumed |};
          Dashboard.water := w |}.

(** The user and the dashboard data in which both calorie figures are
    numbers. *)
Definition user_with_target (target : number) : option Profile.User :=
  Some {| Profile.bmi := 22; Profile.daily_calorie_target := target |}.

Definition dashboard_with_total (total : number) : option Dashboard.DashboardData :=
  Some {| Dashboard.user := None;
          Dashboard.food := Some {| Dashboard.total_kcal := Num total |};
          Dashboard.water := None |}.

(** ** Vocabulary of the binary64 lemmas *)

(** ** Vocabulary of the statements on scaling *)

(** The double [2^j], for [j] between -1022 and 1023. *)
Definition pow2 (j : Z) : number :=
  SF2Prim (S754_finite false 4503599627370496 (j - 52)).

(** A number whose magnitude lies between [2^-400] and [2^400]: far
    from overflow and underflow. *)
Definition moderate (x : number) : bool :=
  (0x1p-400 <=? abs x) && (abs x <=? 0x1p400).

(** A per-100 g value the scaling statement covers: 0, or a number of
    moderate magnitude. *)
Definition scalable (f : number) : Prop :=
  moderate f = true \/ (f =? 0) = true.

Module FloatSpec.

(** The order of two positive finite values: by exponent, then by
    mantissa. *)
Definition lexcmp (e1 : Z) (m1 : positive) (e2 : Z) (m2 : positive) : comparison :=
  match Z.compare e1 e2 with
  | Lt => Lt
  | Gt => Gt
  | Eq => Pos.compare_cont Eq m1 m2
  end.

(** [x] is a zero, an infinity or a finite value of sign [s]. *)
Definition signed (s : bool) (x : spec_float) : Prop :=
  match x with
  | S754_zero s' | S754_infinity s' | S754_finite s' _ _ => s' = s
  | S754_nan => False
  end.

(** Zero of either sign, a positive finite number or [+infinity]. *)
Definition nonneg (x : spec_float) : Prop :=
  match x with
  | S754_zero _ | S754_infinity false | S754_finite false _ _ => True
  | _ => False
  end.

(** A positive finite number or [+infinity]. *)
Definition positive_sf (x : spec_float) : Prop :=
  match x with
  | S754_infinity false | S754_finite false _ _ => True
  | _ => False
  end.


End FloatSpec.

Import FloatSpec.

(** ** Ordering of binary64 values

    The comparison primitives are specified by [SFcompare] on the
    decoded value; the order facts used later are derived from it. *)

Module FloatOrder.

Lemma lexcmp_Lt e1 m1 e2 m2 :
  lexcmp e1 m1 e2 m2 = Lt <-> (e1 < e2)%Z \/ (e1 = e2 /\ (m1 < m2)%positive).
Proof.
  unfold lexcmp. fold (Pos.compare m1 m2).
  destruct (Z.compare_spec e1 e2); destruct (Pos.compare_spec m1 m2);
    split; intros; try discriminate; try reflexivity; try lia.
Qed.

Lemma lexcmp_Eq e1 m1 e2 m2 :
  lexcmp e1 m1 e2 m2 = Eq <-> e1 = e2 /\ m1 = m2.
Proof.
  unfold lexcmp. fold (Pos.compare m1 m2).
  destruct (Z.compare_spec e1 e2); destruct (Pos.compare_spec m1 m2);
    split; intros; try discriminate; try reflexivity; try lia.
Qed.

Lemma lexcmp_Gt e1 m1 e2 m2 :
  lexcmp e1 m1 e2 m2 = Gt <-> (e2 < e1)%Z \/ (e1 = e2 /\ (m2 < m1)%positive).
Proof.
  unfold lexcmp. fold (Pos.compare m1 m2).
  destruct (Z.compare_spec e1 e2); destruct (Pos.compare_spec m1 m2);
    split; intros; try discriminate; try reflexivity; try lia.
Qed.

Lemma lexcmp_opp_Lt e1 m1 e2 m2 :
  match Z.compare e1 e2 with
  | Lt => Gt
  | Gt => Lt
  | Eq => CompOpp (Pos.compare_cont Eq m1 m2)
  end = CompOpp (lexcmp e1 m1 e2 m2).
Proof. unfold lexcmp. destruct (Z.compare e1 e2); reflexivity. Qed.

(** [SFcompare] on two finite values, with the sign analysis factored out. *)
Lemma SFcompare_finite s1 m1 e1 s2 m2 e2 :
  SFcompare (S754_finite s1 m1 e1) (S754_finite s2 m2 e2) =
  Some (match s1, s2 with
        | true, false => Lt
        | false, true => Gt
        | false, false => lexcmp e1 m1 e2 m2
        | true, true => CompOpp (lexcmp e1 m1 e2 m2)
        end).
Proof.
  destruct s1, s2; simpl; try reflexivity.
  now rewrite lexcmp_opp_Lt.
Qed.

Lemma lexcmp_antisym e1 m1 e2 m2 :
  lexcmp e2 m2 e1 m1 = CompOpp (lexcmp e1 m1 e2 m2).
Proof.
  destruct (lexcmp e1 m1 e2 m2) eqn:E.
  - apply lexcmp_Eq in E. apply lexcmp_Eq. lia.
  - apply lexcmp_Lt in E. apply lexcmp_Gt. lia.
  - apply lexcmp_Gt in E. apply lexcmp_Lt. lia.
Qed.

Lemma SFcompare_antisym a b :
  SFcompare b a = option_map CompOpp (SFcompare a b).
Proof.
  destruct a as [sa|sa| |sa ma ea], b as [sb|sb| |sb mb eb];
    try (destruct sa); try (destruct sb); try reflexivity;
    rewrite !SFcompare_finite; simpl; f_equal;
    rewrite (lexcmp_antisym ea ma eb mb);
    now rewrite ?CompOpp_involutive.
Qed.

Lemma SFcompare_refl a : a <> S754_nan -> SFcompare a a = Some Eq.
Proof.
  destruct a as [s|s| |s m e]; intros H; try (destruct s; reflexivity).
  - now elim H.
  - rewrite SFcompare_finite.
    assert (E : lexcmp e m e m = Eq) by (apply lexcmp_Eq; auto).
    rewrite E. now destruct s.
Qed.

Lemma SFcompare_total a b :
  a <> S754_nan -> b <> S754_nan -> exists c, SFcompare a b = Some c.
Proof.
  destruct a as [sa|sa| |sa ma ea], b as [sb|sb| |sb mb eb]; intros Ha Hb;
    try (now elim Ha); try (now elim Hb); simpl; eauto.
Qed.

(** The strict order is transitive, also through a non-strict step. *)
Ltac lex_facts :=
  repeat match goal with
  | H : Some _ = Some _ |- _ => injection H as H
  | H : lexcmp _ _ _ _ = Lt |- _ => apply lexcmp_Lt in H
  | H : lexcmp _ _ _ _ = Eq |- _ => apply lexcmp_Eq in H
  | H : lexcmp _ _ _ _ = Gt |- _ => apply lexcmp_Gt in H
  | H : CompOpp ?c = _ |- _ => destruct c eqn:?; simpl in H; try discriminate H; clear H
  end.

Lemma SFcompare_lt_trans a b c :
  SFcompare a b = Some Lt -> SFcompare b c = Some Lt -> SFcompare a c = Some Lt.
Proof.
  destruct a as [sa|sa| |sa ma ea], b as [sb|sb| |sb mb eb], c as [sc|sc| |sc mc ec];
    rewrite ?SFcompare_finite;
    try (destruct sa); try (destruct sb); try (destruct sc);
    simpl; intros H1 H2; try discriminate; try reflexivity;
    lex_facts; f_equal.
  - destruct (lexcmp ea ma ec mc) eqn:E; lex_facts; simpl; try reflexivity; lia.
  - apply lexcmp_Lt. lia.
Qed.

Lemma SFcompare_eq_lt_trans a b c :
  SFcompare a b = Some Eq -> SFcompare b c = Some Lt -> SFcompare a c = Some Lt.
Proof.
  destruct a as [sa|sa| |sa ma ea], b as [sb|sb| |sb mb eb], c as [sc|sc| |sc mc ec];
    rewrite ?SFcompare_finite;
    try (destruct sa); try (destruct sb); try (destruct sc);
    simpl; intros H1 H2; try discriminate; try reflexivity;
    lex_facts; f_equal.
  - destruct (lexcmp ea ma ec mc) eqn:E; lex_facts; simpl; try reflexivity; lia.
  - apply lexcmp_Lt. lia.
Qed.

Lemma SFcompare_lt_eq_trans a b c :
  SFcompare a b = Some Lt -> SFcompare b c = Some Eq -> SFcompare a c = Some Lt.
Proof.
  destruct a as [sa|sa| |sa ma ea], b as [sb|sb| |sb mb eb], c as [sc|sc| |sc mc ec];
    rewrite ?SFcompare_finite;
    try (destruct sa); try (destruct sb); try (destruct sc);
    simpl; intros H1 H2; try discriminate; try reflexivity;
    lex_facts; f_equal.
  - destruct (lexcmp ea ma ec mc) eqn:E; lex_facts; simpl; try reflexivity; lia.
  - apply lexcmp_Lt. lia.
Qed.

(** *** The primitives, through their specification *)

Lemma ltb_Lt x y :
  (x <? y) = true <-> SFcompare (Prim2SF x) (Prim2SF y) = Some Lt.
Proof.
  rewrite FloatAxioms.ltb_spec. unfold SFltb.
  destruct (SFcompare (Prim2SF x) (Prim2SF y)) as [[ | | ]|];
    split; intros; try discriminate; reflexivity.
Qed.

Lemma eqb_Eq x y :
  (x =? y) = true <-> SFcompare (Prim2SF x) (Prim2SF y) = Some Eq.
Proof.
  rewrite FloatAxioms.eqb_spec. unfold SFeqb.
  destruct (SFcompare (Prim2SF x) (Prim2SF y)) as [[ | | ]|];
    split; intros; try discriminate; reflexivity.
Qed.

Lemma leb_Le x y :
  (x <=? y) = true <->
  SFcompare (Prim2SF x) (Prim2SF y) = Some Lt \/
  SFcompare (Prim2SF x) (Prim2SF y) = Some Eq.
Proof.
  rewrite FloatAxioms.leb_spec. unfold SFleb.
  destruct (SFcompare (Prim2SF x) (Prim2SF y)) as [[ | | ]|];
    split; intros; try discriminate; auto;
    match goal with H : _ \/ _ |- _ => destruct H; discriminate end.
Qed.

Lemma is_nan_false x : is_nan x = false <-> Prim2SF x <> S754_nan.
Proof.
  unfold is_nan. rewrite negb_false_iff, eqb_Eq. split.
  - intros E N. rewrite N in E. discriminate.
  - apply SFcompare_refl.
Qed.

Lemma compare_not_nan x y c :
  SFcompare (Prim2SF x) (Prim2SF y) = Some c ->
  is_nan x = false /\ is_nan y = false.
Proof.
  intros E. split; apply is_nan_false; intros N; rewrite N in E;
    destruct (Prim2SF x), (Prim2SF y); discriminate.
Qed.

Lemma ltb_not_nan x y :
  (x <? y) = true -> is_nan x = false /\ is_nan y = false.
Proof. rewrite ltb_Lt. apply compare_not_nan. Qed.

Lemma leb_not_nan x y :
  (x <=? y) = true -> is_nan x = false /\ is_nan y = false.
Proof. rewrite leb_Le. intros [E|E]; exact (compare_not_nan _ _ _ E). Qed.

Lemma ltb_leb x y : (x <? y) = true -> (x <=? y) = true.
Proof. rewrite ltb_Lt, leb_Le. auto. Qed.

Lemma ltb_asym x y : (x <? y) = true -> (y <? x) = false.
Proof.
  rewrite ltb_Lt. intros E. apply not_true_is_false. rewrite ltb_Lt.
  rewrite SFcompare_antisym, E. discriminate.
Qed.

Lemma ltb_not_leb x y : (x <? y) = true -> (y <=? x) = false.
Proof.
  rewrite ltb_Lt. intros E. apply not_true_is_false. rewrite leb_Le.
  rewrite SFcompare_antisym, E. intros [F|F]; discriminate.
Qed.

Lemma leb_not_ltb x y : (x <=? y) = true -> (y <? x) = false.
Proof.
  rewrite leb_Le. intros E. apply not_true_is_false. rewrite ltb_Lt.
  rewrite SFcompare_antisym. destruct E as [E|E]; rewrite E; discriminate.
Qed.

Lemma ltb_not_eqb x y : (x <? y) = true -> (x =? y) = false /\ (y =? x) = false.
Proof.
  rewrite ltb_Lt. intros E. split; apply not_true_is_false; rewrite eqb_Eq.
  - rewrite E. discriminate.
  - rewrite SFcompare_antisym, E. discriminate.
Qed.

Lemma ltb_trans x y z : (x <? y) = true -> (y <? z) = true -> (x <? z) = true.
Proof. rewrite !ltb_Lt. apply SFcompare_lt_trans. Qed.

Lemma leb_ltb_trans x y z : (x <=? y) = true -> (y <? z) = true -> (x <? z) = true.
Proof.
  rewrite leb_Le, !ltb_Lt. intros [E|E] F.
  - exact (SFcompare_lt_trans _ _ _ E F).
  - exact (SFcompare_eq_lt_trans _ _ _ E F).
Qed.

Lemma ltb_leb_trans x y z : (x <? y) = true -> (y <=? z) = true -> (x <? z) = true.
Proof.
  rewrite leb_Le, !ltb_Lt. intros E [F|F].
  - exact (SFcompare_lt_trans _ _ _ E F).
  - exact (SFcompare_lt_eq_trans _ _ _ E F).
Qed.

(** Two numbers are comparable as soon as neither is NaN. *)
Lemma ltb_or_leb x y :
  is_nan x = false -> is_nan y = false -> (x <? y) = true \/ (y <=? x) = true.
Proof.
  rewrite !is_nan_false. intros Hx Hy.
  destruct (SFcompare_total _ _ Hx Hy) as [c E].
  rewrite ltb_Lt, leb_Le, (SFcompare_antisym (Prim2SF x) (Prim2SF y)), E.
  destruct c; simpl; auto.
Qed.

Lemma ltb_false_leb x y :
  is_nan x = false -> is_nan y = false -> (x <? y) = false -> (y <=? x) = true.
Proof.
  intros Hx Hy F. destruct (ltb_or_leb x y Hx Hy) as [E|E]; congruence.
Qed.

End FloatOrder.

Import FloatOrder.

(** ** Signs of quotients and products

    Rounding never changes the sign: the quotient of a non-negative by
    a positive number and the product of two non-negative numbers are
    non-negative (possibly infinite), never NaN, unless the quotient is
    infinity by infinity. *)

Module FloatSign.

Section Rounding.

Variables prec emax : Z.

Lemma shr_1_nonneg mrs : (0 <= shr_m mrs)%Z -> (0 <= shr_m (shr_1 mrs))%Z.
Proof.
  destruct mrs as [m r s]. simpl. destruct m as [|p|p]; intros H; try lia.
  - simpl. lia.
  - destruct p; simpl; lia.
Qed.

Lemma iter_pos_nonneg p : forall mrs,
  (0 <= shr_m mrs)%Z -> (0 <= shr_m (iter_pos shr_1 p mrs))%Z.
Proof.
  induction p; intros mrs H; simpl.
  - apply IHp, IHp. now apply shr_1_nonneg.
  - now apply IHp, IHp.
  - now apply shr_1_nonneg.
Qed.

Lemma shr_fexp_nonneg m e l :
  (0 <= m)%Z -> (0 <= shr_m (fst (shr_fexp prec emax m e l)))%Z.
Proof.
  intros H. unfold shr_fexp, shr.
  assert (H0 : (0 <= shr_m (shr_record_of_loc m l))%Z)
    by (destruct l as [|[ | | ]]; exact H).
  destruct (fexp prec emax (Zdigits2 m + e) - e)%Z; simpl; auto.
  now apply iter_pos_nonneg.
Qed.

Lemma round_nearest_even_nonneg m l :
  (0 <= m)%Z -> (0 <= round_nearest_even m l)%Z.
Proof.
  intros H. unfold round_nearest_even.
  destruct l as [|[ | | ]]; try destruct (Z.even m); lia.
Qed.

Lemma binary_round_aux_signed s m e l :
  (0 <= m)%Z -> signed s (binary_round_aux prec emax s m e l).
Proof.
  intros H. unfold binary_round_aux.
  pose proof (shr_fexp_nonneg m e l H) as H1.
  destruct (shr_fexp prec emax m e l) as [mrs' e']. simpl in H1.
  pose proof (shr_fexp_nonneg _ e' loc_Exact
                (round_nearest_even_nonneg _ (loc_of_shr_record mrs') H1)) as H2.
  destruct (shr_fexp prec emax _ e' loc_Exact) as [mrs'' e'']. simpl in H2.
  destruct (shr_m mrs'') as [|p|p]; simpl; auto; try lia.
  destruct (e'' <=? emax - prec)%Z; reflexivity.
Qed.


Lemma signed_nonneg x : signed false x -> nonneg x.
Proof. destruct x as [s|s| |s m e]; simpl; intros H; subst; auto. Qed.

Lemma SFdiv_nonneg a b :
  nonneg a -> positive_sf b ->
  a <> S754_infinity false \/ b <> S754_infinity false ->
  nonneg (SFdiv prec emax a b).
Proof.
  destruct a as [sa|[|]| |[|] ma ea], b as [sb|[|]| |[|] mb eb];
    simpl; intros Ha Hb Hfin; try contradiction; auto.
  - destruct Hfin as [F|F]; now elim F.
  - apply signed_nonneg.
    unfold SFdiv_core_binary.
    set (m' := match _ with Zpos _ => Z.shiftl _ _ | Z0 => _ | Zneg _ => _ end).
    assert (Hm : (0 <= m')%Z).
    { subst m'. destruct (ea - eb - _)%Z; try lia.
      apply Z.shiftl_nonneg. lia. }
    pose proof (Z_div_mod m' (Zpos mb) eq_refl) as D.
    destruct (Z.div_eucl m' (Z.pos mb)) as [q r].
    apply binary_round_aux_signed. destruct D as [D1 D2]. nia.
Qed.

Lemma SFmul_nonneg a b :
  nonneg a -> (exists m e, b = S754_finite false m e) ->
  nonneg (SFmul prec emax a b).
Proof.
  intros Ha [m [e ->]].
  destruct a as [sa|[|]| |[|] ma ea]; simpl in *; try contradiction; auto.
  apply signed_nonneg, binary_round_aux_signed. lia.
Qed.

End Rounding.

Lemma leb_0_nonneg x : (0 <=? x) = true <-> nonneg (Prim2SF x).
Proof.
  rewrite leb_Le. change (Prim2SF 0) with (S754_zero false).
  destruct (Prim2SF x) as [s|[|]| |[|] m e]; simpl;
    split; intros H; auto; try contradiction;
    destruct H; discriminate.
Qed.

Lemma ltb_0_positive x : (0 <? x) = true <-> positive_sf (Prim2SF x).
Proof.
  rewrite ltb_Lt. change (Prim2SF 0) with (S754_zero false).
  destruct (Prim2SF x) as [s|[|]| |[|] m e]; simpl;
    split; intros H; auto; try contradiction; discriminate.
Qed.

Lemma ltb_infinity x : (x <? infinity) = true -> Prim2SF x <> S754_infinity false.
Proof.
  rewrite ltb_Lt. change (Prim2SF infinity) with (S754_infinity false).
  intros H E. rewrite E in H. discriminate.
Qed.

(** A finite non-negative [consumed] over a positive [goal], times 100. *)
Lemma ratio_nonneg (consumed goal : number) :
  (0 <=? consumed) = true -> (consumed <? infinity) = true -> (0 <? goal) = true ->
  (0 <=? consumed / goal * 100) = true.
Proof.
  intros Hc Hf Hg.
  apply leb_0_nonneg. rewrite mul_spec, div_spec.
  unfold SF64mul, SF64div. apply SFmul_nonneg.
  - apply SFdiv_nonneg.
    + now apply leb_0_nonneg.
    + now apply ltb_0_positive.
    + left. now apply ltb_infinity.
  - change (Prim2SF 100) with (S754_finite false 7036874417766400 (-46)). eauto.
Qed.

(** The difference of two finite numbers is a number. *)
Lemma is_finite_spec x :
  is_finite x = true ->
  match Prim2SF x with
  | S754_zero _ | S754_finite _ _ _ => True
  | _ => False
  end.
Proof.
  unfold is_finite, is_infinity. rewrite negb_true_iff, orb_false_iff.
  intros [N I]. apply is_nan_false in N.
  apply not_true_iff_false in I. rewrite eqb_Eq, abs_spec in I.
  change (Prim2SF infinity) with (S754_infinity false) in I.
  destruct (Prim2SF x) as [s|s| |s m e]; auto.
Qed.

Lemma SFsub_finite_not_nan a b :
  match a with S754_zero _ | S754_finite _ _ _ => True | _ => False end ->
  match b with S754_zero _ | S754_finite _ _ _ => True | _ => False end ->
  SFsub prec emax a b <> S754_nan.
Proof.
  destruct a as [sa|sa| |sa ma ea], b as [sb|sb| |sb mb eb];
    simpl; intros Ha Hb; try contradiction; try discriminate.
  - destruct sa, sb; discriminate.
  - unfold binary_normalize.
    match goal with |- context [match ?z with Z0 => _ | Zpos _ => _ | Zneg _ => _ end] =>
      destruct z as [|p|p] end; try discriminate;
      unfold binary_round;
      match goal with |- context [shl_align ?m ?e ?e'] =>
        destruct (shl_align m e e') as [mz ez] end;
      match goal with |- binary_round_aux _ _ ?s ?m ?e ?l <> _ =>
        pose proof (binary_round_aux_signed prec emax s m e l) as S;
        destruct (binary_round_aux prec emax s m e l) end;
      try discriminate; intros _; apply S; lia.
Qed.

Lemma sub_finite_not_nan x y :
  is_finite x = true -> is_finite y = true -> is_nan (x - y) = false.
Proof.
  intros Hx Hy. apply is_nan_false. rewrite sub_spec.
  apply SFsub_finite_not_nan; now apply is_finite_spec.
Qed.

End FloatSign.

Import FloatSign.

(** ** Magnitude of quotients and products

    Rounding never flushes a value of the normal range to zero: the
    mantissa is shifted right by the number of digits above 53, and at
    least one digit is left. *)

Module FloatMagnitude.

(** A mantissa of [d] binary digits lies between [2^(d-1)] and [2^d]. *)
Lemma digits2_pos_bounds (p : positive) :
  (2 ^ (Z.pos (digits2_pos p) - 1) <= Z.pos p < 2 ^ Z.pos (digits2_pos p))%Z.
Proof.
  induction p as [p IH|p IH|]; cbn [digits2_pos].
  - rewrite Pos2Z.inj_succ.
    replace (Z.succ (Z.pos (digits2_pos p)) - 1)%Z
      with (Z.succ (Z.pos (digits2_pos p) - 1)) by lia.
    rewrite !Z.pow_succ_r by lia. lia.
  - rewrite Pos2Z.inj_succ.
    replace (Z.succ (Z.pos (digits2_pos p)) - 1)%Z
      with (Z.succ (Z.pos (digits2_pos p) - 1)) by lia.
    rewrite !Z.pow_succ_r by lia. lia.
  - simpl. lia.
Qed.

Lemma shr_1_value mrs :
  (0 <= shr_m mrs)%Z -> shr_m (shr_1 mrs) = (shr_m mrs / 2)%Z.
Proof.
  destruct mrs as [m r s]. cbn [shr_m]. intros H.
  destruct m as [|p|p]; try lia.
  - reflexivity.
  - destruct p as [p|p|]; cbn [shr_1 shr_m].
    + change (Z.pos p~1) with (2 * Z.pos p + 1)%Z.
      apply Z.div_unique with 1%Z; lia.
    + change (Z.pos p~0) with (2 * Z.pos p)%Z.
      apply Z.div_unique with 0%Z; lia.
    + reflexivity.
Qed.

Lemma iter_shr_1_value p : forall mrs,
  (0 <= shr_m mrs)%Z ->
  shr_m (iter_pos shr_1 p mrs) = (shr_m mrs / 2 ^ Z.pos p)%Z.
Proof.
  induction p as [p IH|p IH|]; intros mrs H; cbn [iter_pos].
  - assert (P : (0 < 2 ^ Z.pos p)%Z) by (apply Z.pow_pos_nonneg; lia).
    assert (H1 : (0 <= shr_m (shr_1 mrs))%Z)
      by (rewrite shr_1_value by lia; apply Z.div_pos; lia).
    assert (H2 : (0 <= shr_m (iter_pos shr_1 p (shr_1 mrs)))%Z)
      by (rewrite IH by lia; apply Z.div_pos; lia).
    rewrite IH, IH, shr_1_value by lia.
    rewrite !Z.div_div by lia.
    f_equal.
    replace (Z.pos p~1) with (1 + (Z.pos p + Z.pos p))%Z by lia.
    rewrite !Z.pow_add_r by lia. lia.
  - assert (P : (0 < 2 ^ Z.pos p)%Z) by (apply Z.pow_pos_nonneg; lia).
    assert (H2 : (0 <= shr_m (iter_pos shr_1 p mrs))%Z)
      by (rewrite IH by lia; apply Z.div_pos; lia).
    rewrite IH, IH by lia.
    rewrite !Z.div_div by lia.
    f_equal.
    replace (Z.pos p~0) with (Z.pos p + Z.pos p)%Z by lia.
    rewrite !Z.pow_add_r by lia. lia.
  - now apply shr_1_value.
Qed.

(** Above the smallest exponent, the shift to the format keeps a
    positive mantissa positive and does not lower the exponent. *)
Lemma shr_fexp_pos m e l :
  (0 < m)%Z -> (emin <= e)%Z ->
  (0 < shr_m (fst (shr_fexp prec emax m e l)))%Z /\
  (e <= snd (shr_fexp prec emax m e l))%Z.
Proof.
  intros Hm He. unfold shr_fexp, shr.
  assert (H0 : shr_m (shr_record_of_loc m l) = m)
    by (destruct l as [|[ | | ]]; reflexivity).
  destruct m as [|p|p]; try lia.
  cbn [Zdigits2]. pose proof (digits2_pos_bounds p) as B.
  unfold fexp, SpecFloat.emin, prec, emax in *.
  destruct (Z.max (Z.pos (digits2_pos p) + e - 53) (3 - 1024 - 53) - e)%Z
    as [|n|n] eqn:N; cbn [fst snd]; rewrite ?H0; try lia.
  rewrite iter_shr_1_value by lia. rewrite H0. split; [|lia].
  apply Z.div_str_pos. split; [apply Z.pow_pos_nonneg; lia|].
  apply Z.le_trans with (2 ^ (Z.pos (digits2_pos p) - 1))%Z; [|lia].
  apply Z.pow_le_mono_r; lia.
Qed.

Lemma round_nearest_even_ge m l : (m <= round_nearest_even m l)%Z.
Proof.
  unfold round_nearest_even.
  destruct l as [|[ | | ]]; try destruct (Z.even m); lia.
Qed.







End FloatMagnitude.

Import FloatMagnitude.

(** ** Scaling by a power of two

    Away from overflow and underflow, a power of two only moves the
    exponent: the mantissa computed by a product or a quotient, and its
    rounding, do not depend on it. *)

Module FloatScaling.

Lemma digits2_le (p : positive) (k : Z) :
  (Z.pos p < 2 ^ k)%Z -> (Z.pos (digits2_pos p) <= k)%Z.
Proof.
  intros H. pose proof (digits2_pos_bounds p) as [B _].
  destruct (Z_le_gt_dec (Z.pos (digits2_pos p)) k) as [L|G]; [exact L|].
  exfalso.
  assert (2 ^ k <= 2 ^ (Z.pos (digits2_pos p) - 1))%Z
    by (apply Z.pow_le_mono_r; lia).
  lia.
Qed.

Lemma digits2_ge (p : positive) (k : Z) :
  (2 ^ (k - 1) <= Z.pos p)%Z -> (k <= Z.pos (digits2_pos p))%Z.
Proof.
  intros H. pose proof (digits2_pos_bounds p) as [_ B].
  destruct (Z_le_gt_dec k (Z.pos (digits2_pos p))) as [L|G]; [exact L|].
  exfalso.
  assert (2 ^ Z.pos (digits2_pos p) <= 2 ^ (k - 1))%Z
    by (apply Z.pow_le_mono_r; lia).
  lia.
Qed.

Lemma shr_1_exact m :
  (0 <= m)%Z ->
  shr_1 {| shr_m := 2 * m; shr_r := false; shr_s := false |}
  = {| shr_m := m; shr_r := false; shr_s := false |}.
Proof. destruct m; try lia; reflexivity. Qed.

(** Shifting out zeros is exact. *)
Lemma iter_shr_1_exact p : forall m,
  (0 <= m)%Z ->
  iter_pos shr_1 p {| shr_m := m * 2 ^ Z.pos p; shr_r := false; shr_s := false |}
  = {| shr_m := m; shr_r := false; shr_s := false |}.
Proof.
  induction p as [p IH|p IH|]; intros m H; cbn [iter_pos].
  - assert (P : (0 < 2 ^ Z.pos p)%Z) by (apply Z.pow_pos_nonneg; lia).
    replace (m * 2 ^ Z.pos p~1)%Z with (2 * (m * 2 ^ Z.pos p * 2 ^ Z.pos p))%Z.
    + rewrite shr_1_exact by nia. rewrite IH by nia. now apply IH.
    + replace (Z.pos p~1) with (1 + (Z.pos p + Z.pos p))%Z by lia.
      rewrite !Z.pow_add_r by lia. lia.
  - assert (P : (0 < 2 ^ Z.pos p)%Z) by (apply Z.pow_pos_nonneg; lia).
    replace (m * 2 ^ Z.pos p~0)%Z with (m * 2 ^ Z.pos p * 2 ^ Z.pos p)%Z.
    + rewrite IH by nia. now apply IH.
    + replace (Z.pos p~0) with (Z.pos p + Z.pos p)%Z by lia.
      rewrite !Z.pow_add_r by lia. lia.
  - replace (m * 2 ^ 1)%Z with (2 * m)%Z by lia. now apply shr_1_exact.
Qed.

(** A mantissa of 53 digits followed by 52 zeros rounds to itself. *)
Lemma binary_round_aux_rescale s (m : positive) e :
  Z.pos (digits2_pos m) = 53%Z -> (emin <= e)%Z ->
  binary_round_aux prec emax s (Z.pos (m * 4503599627370496)) (e - 52) loc_Exact
  = if (e <=? emax - prec)%Z then S754_finite s m e else S754_infinity s.
Proof.
  intros D E. pose proof (digits2_pos_bounds m) as B. rewrite D in B.
  assert (M : Z.pos (m * 4503599627370496) = (Z.pos m * 2 ^ 52)%Z) by reflexivity.
  assert (D' : Z.pos (digits2_pos (m * 4503599627370496)) = 105%Z).
  { apply Z.le_antisymm.
    - apply digits2_le. rewrite M.
      change (2 ^ 105)%Z with (2 ^ 53 * 2 ^ 52)%Z. lia.
    - apply digits2_ge. rewrite M.
      change (2 ^ (105 - 1))%Z with (2 ^ (53 - 1) * 2 ^ 52)%Z. lia. }
  unfold binary_round_aux, shr_fexp, shr_record_of_loc. cbn [Zdigits2].
  rewrite D'. unfold fexp, SpecFloat.emin, prec, emax in *.
  replace (Z.max (105 + (e - 52) - 53) (3 - 1024 - 53) - (e - 52))%Z with 52%Z by lia.
  cbn [shr]. rewrite M. rewrite iter_shr_1_exact by lia.
  cbn [shr_m loc_of_shr_record round_nearest_even Zdigits2]. rewrite D.
  replace (e - 52 + 52)%Z with e by lia.
  replace (Z.max (53 + e - 53) (3 - 1024 - 53) - e)%Z with 0%Z by lia.
  reflexivity.
Qed.

Lemma round_nearest_even_le m l : (round_nearest_even m l <= m + 1)%Z.
Proof.
  unfold round_nearest_even.
  destruct l as [|[ | | ]]; try destruct (Z.even m); lia.
Qed.

(** One shift to the format: a positive mantissa below [2^D] leaves a
    positive mantissa below [2^53], and the exponent grows by at most
    [D - 53]. *)
Lemma shr_fexp_bounds m e l D :
  (0 < m < 2 ^ D)%Z -> (53 <= D)%Z -> (emin <= e)%Z ->
  (0 < shr_m (fst (shr_fexp prec emax m e l)) < 2 ^ 53)%Z /\
  (e <= snd (shr_fexp prec emax m e l) <= e + (D - 53))%Z.
Proof.
  intros [Hm HD] H53 He.
  pose proof (shr_fexp_pos m e l Hm He) as [P E].
  split; [split; [exact P|]|split; [exact E|]]; clear P E;
    unfold shr_fexp, shr;
    assert (H0 : shr_m (shr_record_of_loc m l) = m)
      by (destruct l as [|[ | | ]]; reflexivity);
    destruct m as [|p|p]; try lia;
    cbn [Zdigits2]; pose proof (digits2_pos_bounds p) as B;
    pose proof (digits2_le p D HD) as L;
    unfold fexp, SpecFloat.emin, prec, emax in *;
    destruct (Z.max (Z.pos (digits2_pos p) + e - 53) (3 - 1024 - 53) - e)%Z
      as [|n|n] eqn:N; cbn [fst snd]; rewrite ?H0; try lia.
  - apply Z.lt_le_trans with (2 ^ Z.pos (digits2_pos p))%Z; [lia|].
    apply Z.pow_le_mono_r; lia.
  - rewrite iter_shr_1_value by lia. rewrite H0.
    apply Z.div_lt_upper_bound; [apply Z.pow_pos_nonneg; lia|].
    rewrite <- Z.pow_add_r by lia.
    replace (Z.pos n + 53)%Z with (Z.pos (digits2_pos p)) by lia. lia.
  - apply Z.lt_le_trans with (2 ^ Z.pos (digits2_pos p))%Z; [lia|].
    apply Z.pow_le_mono_r; lia.
Qed.

(** The exponent does not matter to the shift when it is well above
    the smallest one. *)
Lemma shr_fexp_shift m e l j :
  (0 <= m)%Z -> (emin + prec <= e)%Z -> (emin + prec <= e + j)%Z ->
  shr_fexp prec emax m (e + j) l
  = (fst (shr_fexp prec emax m e l), (snd (shr_fexp prec emax m e l) + j)%Z).
Proof.
  intros Hm He Hj. unfold shr_fexp, shr.
  assert (Hd : (0 <= Zdigits2 m)%Z) by (destruct m; simpl; lia).
  unfold fexp, SpecFloat.emin, prec, emax in *.
  replace (Z.max (Zdigits2 m + (e + j) - 53) (3 - 1024 - 53) - (e + j))%Z
    with (Zdigits2 m - 53)%Z by lia.
  replace (Z.max (Zdigits2 m + e - 53) (3 - 1024 - 53) - e)%Z
    with (Zdigits2 m - 53)%Z by lia.
  destruct (Zdigits2 m - 53)%Z; cbn [fst snd]; f_equal; lia.
Qed.

(** Rounding in the normal range: the result is finite and not zero,
    with the exponent between [e] and [e + (D - 53) + 1]; and moving
    the exponent by [j] moves the exponent of the result by [j]. *)
Lemma binary_round_aux_normal s m e l D :
  (0 < m < 2 ^ D)%Z -> (53 <= D)%Z -> (emin <= e)%Z ->
  (e + (D - 53) + 1 <= emax - prec)%Z ->
  exists m' e',
    binary_round_aux prec emax s m e l = S754_finite s m' e' /\
    (e <= e' <= e + (D - 53) + 1)%Z.
Proof.
  intros Hm H53 He Hu. unfold binary_round_aux.
  pose proof (shr_fexp_bounds m e l D Hm H53 He) as [P1 E1].
  destruct (shr_fexp prec emax m e l) as [mrs' e1]. cbn [fst snd] in P1, E1.
  pose proof (round_nearest_even_ge (shr_m mrs') (loc_of_shr_record mrs')) as R1.
  pose proof (round_nearest_even_le (shr_m mrs') (loc_of_shr_record mrs')) as R2.
  pose proof (shr_fexp_bounds
                (round_nearest_even (shr_m mrs') (loc_of_shr_record mrs'))
                e1 loc_Exact 54) as S2.
  change (2 ^ 54)%Z with (2 * 2 ^ 53)%Z in S2.
  destruct S2 as [P2 E2]; try lia.
  destruct (shr_fexp prec emax _ e1 loc_Exact) as [mrs'' e2].
  cbn [fst snd] in P2, E2.
  destruct (shr_m mrs'') as [|q|q]; try lia.
  unfold prec, emax in *.
  destruct (Z.leb_spec e2 (1024 - 53)) as [L|L]; [|lia].
  exists q, e2. split; [reflexivity|lia].
Qed.

Lemma binary_round_aux_shift s m e l j m' e' :
  (0 <= m)%Z -> (emin + prec <= e)%Z -> (emin + prec <= e + j)%Z ->
  binary_round_aux prec emax s m e l = S754_finite s m' e' ->
  (e' + j <= emax - prec)%Z ->
  binary_round_aux prec emax s m (e + j) l = S754_finite s m' (e' + j).
Proof.
  intros Hm He Hj. unfold binary_round_aux.
  rewrite (shr_fexp_shift m e l j Hm He Hj).
  pose proof (shr_fexp_nonneg prec emax m e l Hm) as N1.
  assert (E1 : (e <= snd (shr_fexp prec emax m e l))%Z).
  { unfold shr_fexp, shr.
    destruct (fexp prec emax (Zdigits2 m + e) - e)%Z; cbn [snd]; lia. }
  destruct (shr_fexp prec emax m e l) as [mrs' e1]. cbn [fst snd] in *.
  pose proof (round_nearest_even_nonneg _ (loc_of_shr_record mrs') N1) as N2.
  rewrite (shr_fexp_shift _ e1 loc_Exact j N2) by lia.
  destruct (shr_fexp prec emax _ e1 loc_Exact) as [mrs'' e2]. cbn [fst snd].
  destruct (shr_m mrs'') as [|q|q]; try discriminate.
  destruct (e2 <=? emax - prec)%Z; try discriminate.
  intros E U. injection E as -> ->.
  destruct (Z.leb_spec (e' + j) (emax - prec)) as [L|L]; [reflexivity|lia].
Qed.

Lemma eqb_0_zero (x : number) :
  (x =? 0) = true <-> exists s, Prim2SF x = S754_zero s.
Proof.
  rewrite eqb_Eq. change (Prim2SF 0) with (S754_zero false).
  destruct (Prim2SF x) as [s|[|]| |[|] m e]; simpl; split;
    try discriminate; try (intros [s' E]; discriminate); eauto.
Qed.

Lemma canonical_digits m e :
  bounded prec emax m e = true ->
  (Z.pos (digits2_pos m) <= 53)%Z /\
  ((emin < e)%Z -> Z.pos (digits2_pos m) = 53%Z).
Proof.
  unfold bounded, canonical_mantissa, fexp, SpecFloat.emin, prec, emax.
  rewrite andb_true_iff, Z.eqb_eq. intros [C _]. lia.
Qed.

Lemma pow2_spec (j : Z) :
  (-1022 <= j <= 1023)%Z ->
  Prim2SF (pow2 j) = S754_finite false 4503599627370496 (j - 52).
Proof.
  intros H. unfold pow2. apply Prim2SF_SF2Prim.
  unfold valid_binary, bounded, canonical_mantissa.
  change (digits2_pos 4503599627370496) with 53%positive.
  unfold fexp, SpecFloat.emin, prec, emax.
  apply andb_true_iff. split; [apply Z.eqb_eq|apply Z.leb_le]; lia.
Qed.

Lemma moderate_shape (x : number) :
  moderate x = true ->
  exists s m e,
    Prim2SF x = S754_finite s m e /\
    Z.pos (digits2_pos m) = 53%Z /\ (-452 <= e <= 348)%Z.
Proof.
  unfold moderate. rewrite andb_true_iff, !leb_Le, abs_spec.
  change (Prim2SF 0x1p-400) with (S754_finite false 4503599627370496 (-452)).
  change (Prim2SF 0x1p400) with (S754_finite false 4503599627370496 348).
  pose proof (Prim2SF_valid x) as V.
  destruct (Prim2SF x) as [s|s| |s m e]; intros [L U];
    [ exfalso; destruct L as [L|L]; discriminate L
    | exfalso; destruct U as [U|U]; discriminate U
    | exfalso; destruct L as [L|L]; discriminate L
    | ].
  cbn [SFabs] in L, U. rewrite SFcompare_finite in L, U.
  assert (E1 : (-452 <= e)%Z).
  { clear V U. destruct L as [L|L]; injection L as L.
    - apply lexcmp_Lt in L. destruct L as [L|[L _]]; lia.
    - apply lexcmp_Eq in L. destruct L as [L _]. lia. }
  assert (E2 : (e <= 348)%Z).
  { clear V L. destruct U as [U|U]; injection U as U.
    - apply lexcmp_Lt in U. destruct U as [U|[U _]]; lia.
    - apply lexcmp_Eq in U. destruct U as [U _]. lia. }
  assert (E : (-452 <= e <= 348)%Z) by (split; assumption).
  clear L U.
  exists s, m, e. split; [reflexivity|]. split; [|exact E].
  apply (canonical_digits m e V). unfold SpecFloat.emin, prec, emax. lia.
Qed.

(** Multiplying a normal value by [2^j] adds [j] to its exponent. *)
Lemma SFmul_pow2_l s m e j :
  Z.pos (digits2_pos m) = 53%Z -> (emin <= e + j)%Z -> (e + j <= emax - prec)%Z ->
  SFmul prec emax (S754_finite false 4503599627370496 (j - 52)) (S754_finite s m e)
  = S754_finite s m (e + j).
Proof.
  intros D L U. cbn [SFmul xorb]. rewrite Pos.mul_comm.
  replace (j - 52 + e)%Z with (e + j - 52)%Z by lia.
  rewrite binary_round_aux_rescale by assumption.
  destruct (Z.leb_spec (e + j) (emax - prec)); [reflexivity|lia].
Qed.

Lemma SFmul_pow2_r s m e j :
  Z.pos (digits2_pos m) = 53%Z -> (emin <= e + j)%Z -> (e + j <= emax - prec)%Z ->
  SFmul prec emax (S754_finite s m e) (S754_finite false 4503599627370496 (j - 52))
  = S754_finite s m (e + j).
Proof.
  intros D L U. cbn [SFmul]. rewrite xorb_false_r.
  replace (e + (j - 52))%Z with (e + j - 52)%Z by lia.
  rewrite binary_round_aux_rescale by assumption.
  destruct (Z.leb_spec (e + j) (emax - prec)); [reflexivity|lia].
Qed.

(** The quotient of two normal values: the mantissa that is rounded
    does not depend on the exponents. *)
Lemma SFdiv_normal s m sb mb eb :
  Z.pos (digits2_pos m) = 53%Z -> Z.pos (digits2_pos mb) = 53%Z ->
  exists q l,
    (0 < q < 2 ^ 54)%Z /\
    forall e, (emin <= e - eb - 53)%Z ->
      SFdiv prec emax (S754_finite s m e) (S754_finite sb mb eb)
      = binary_round_aux prec emax (xorb s sb) q (e - eb - 53) l.
Proof.
  intros D Db.
  pose proof (digits2_pos_bounds m) as B. rewrite D in B.
  pose proof (digits2_pos_bounds mb) as Bb. rewrite Db in Bb.
  pose proof (Z_div_mod (Z.pos m * 2 ^ 53) (Z.pos mb) eq_refl) as Q.
  exists (fst (Z.div_eucl (Z.pos m * 2 ^ 53) (Z.pos mb))),
         (new_location (Z.pos mb) (snd (Z.div_eucl (Z.pos m * 2 ^ 53) (Z.pos mb)))).
  split.
  - destruct (Z.div_eucl (Z.pos m * 2 ^ 53) (Z.pos mb)) as [q r].
    cbn [fst]. destruct Q as [Q1 Q2].
    change (2 ^ (53 - 1))%Z with 4503599627370496%Z in *.
    change (2 ^ 53)%Z with 9007199254740992%Z in *.
    change (2 ^ 54)%Z with 18014398509481984%Z.
    split; nia.
  - intros e E. cbn [SFdiv]. unfold SFdiv_core_binary. cbn [Zdigits2].
    rewrite D, Db. unfold fexp, SpecFloat.emin, prec, emax in *.
    replace (Z.min (Z.max (53 + e - (53 + eb) - 53) (3 - 1024 - 53)) (e - eb))%Z
      with (e - eb - 53)%Z by lia.
    replace (e - eb - (e - eb - 53))%Z with 53%Z by lia.
    rewrite Z.shiftl_mul_pow2 by lia.
    destruct (Z.div_eucl (Z.pos m * 2 ^ 53) (Z.pos mb)) as [q r].
    reflexivity.
Qed.

(** For grams and a per-100 g value of moderate magnitude (or a value
    of 0), scaling the grams by [2^j] scales the field by [2^j], in
    binary64 and exactly. *)
Lemma scaled_field (f g : number) (j : Z) :
  (-100 <= j <= 100)%Z ->
  moderate g = true ->
  scalable f ->
  f * (g * pow2 j / 100) = pow2 j * (f * (g / 100)).
Proof.
  intros J Hg Hf. apply Prim2SF_inj.
  pose proof (Prim2SF_valid (g / 100)) as Vh.
  pose proof (Prim2SF_valid (f * (g / 100))) as Vp.
  pose proof (Prim2SF_valid f) as Vf.
  rewrite ?mul_spec, ?div_spec, ?mul_spec in *. rewrite pow2_spec by lia.
  unfold SF64mul, SF64div in *.
  change (Prim2SF 100) with (S754_finite false 7036874417766400 (-46)) in *.
  destruct (moderate_shape g Hg) as [sg [mg [eg [G [Dg Eg]]]]].
  rewrite G in *.
  rewrite SFmul_pow2_r by (unfold SpecFloat.emin, prec, emax; lia).
  destruct (SFdiv_normal sg mg false 7036874417766400 (-46) Dg eq_refl)
    as [q [l [Q Hdiv]]].
  rewrite (Hdiv eg) in * by (unfold SpecFloat.emin, prec, emax; lia).
  rewrite (Hdiv (eg + j)%Z) by (unfold SpecFloat.emin, prec, emax; lia).
  destruct (binary_round_aux_normal (xorb sg false) q (eg - -46 - 53) l 54)
    as [mh [eh [H Eh]]]; try (unfold SpecFloat.emin, prec, emax; lia).
  replace (eg + j - -46 - 53)%Z with (eg - -46 - 53 + j)%Z by lia.
  rewrite (binary_round_aux_shift _ _ _ _ j mh eh) by
    (try exact H; unfold SpecFloat.emin, prec, emax; lia).
  rewrite H in *.
  destruct Hf as [Hf|Hf].
  - destruct (moderate_shape f Hf) as [sf [mf [ef [F [Df Ef]]]]].
    rewrite F in *. cbn [SFmul] in *.
    destruct (canonical_digits mh eh Vh) as [Dh _].
    pose proof (digits2_pos_bounds mf) as Bf. rewrite Df in Bf.
    pose proof (digits2_pos_bounds mh) as Bh.
    assert (Bh' : (Z.pos mh < 2 ^ 53)%Z).
    { apply Z.lt_le_trans with (2 ^ Z.pos (digits2_pos mh))%Z; [lia|].
      apply Z.pow_le_mono_r; lia. }
    assert (M : (0 < Z.pos (mf * mh) < 2 ^ 106)%Z).
    { change (2 ^ 106)%Z with (2 ^ 53 * 2 ^ 53)%Z.
      rewrite Pos2Z.inj_mul. nia. }
    destruct (binary_round_aux_normal (xorb sf (xorb sg false))
                (Z.pos (mf * mh)) (ef + eh) loc_Exact 106 M)
      as [mp [ep [P Ep]]]; try (unfold SpecFloat.emin, prec, emax; lia).
    replace (ef + (eh + j))%Z with (ef + eh + j)%Z by lia.
    rewrite (binary_round_aux_shift _ _ _ _ j mp ep) by
      (try exact P; unfold SpecFloat.emin, prec, emax; lia).
    rewrite P in *.
    destruct (canonical_digits mp ep Vp) as [_ Dp].
    symmetry. apply (SFmul_pow2_l (xorb sf (xorb sg false)) mp ep j);
      try (unfold SpecFloat.emin, prec, emax; lia).
    apply Dp. unfold SpecFloat.emin, prec, emax. lia.
  - apply eqb_0_zero in Hf. destruct Hf as [s0 F]. rewrite F.
    reflexivity.
Qed.

End FloatScaling.

Import FloatScaling.

(** ** BMI classification *)

Section BMI.

Import Profile.

(** With [h : a <= x] and [h' : x < b] for constants [a >= b]:
    contradiction, by evaluating [a < b]. *)
Ltac order_contra :=
  match goal with
  | H1 : (?a <=? ?x) = true, H2 : (?x <? ?b) = true |- _ =>
      let F := fresh in
      pose proof (leb_ltb_trans a x b H1 H2) as F;
      vm_compute in F; discriminate F
  end.

(** Away from NaN the four branches of [getBMICategory] are the four
    ranges. *)
Lemma getBMICategory_cases (b : number) :
  is_nan b = false ->
  ((b <? 18.5) = true /\ getBMICategory b = {| text := "Underweight"; color := "#FF9800" |}) \/
  ((18.5 <=? b) = true /\ (b <? 25) = true /\
     getBMICategory b = {| text := "Normal"; color := "#4CAF50" |}) \/
  ((25 <=? b) = true /\ (b <? 30) = true /\
     getBMICategory b = {| text := "Overweight"; color := "#FF9800" |}) \/
  ((30 <=? b) = true /\ getBMICategory b = {| text := "Obese"; color := "#F44336" |}).
Proof.
  intros Hb. unfold getBMICategory.
  destruct (b <? 18.5) eqn:E1; [now left|].
  destruct (b <? 25) eqn:E2.
  { right; left. repeat split; auto. apply ltb_false_leb; auto. }
  destruct (b <? 30) eqn:E3.
  { right; right; left. repeat split; auto. apply ltb_false_leb; auto. }
  right; right; right. split; auto. apply ltb_false_leb; auto.
Qed.

(** C2: every positive bmi gets exactly one of the four labels, by the
    fixed thresholds: below 18.5 Underweight, from 18.5 and below 25
    Normal, from 25 and below 30 Overweight, from 30 Obese; the four ranges
    do not overlap (each label is returned on its range and nowhere else)
    and each of them is inhabited.  24.9 is Normal and 25.0 is
    Overweight. *)
Theorem getBMICategory_partition :
  (forall b : number, (0 <? b) = true ->
     let t := text (getBMICategory b) in
     (t = "Underweight"%string <-> (b <? 18.5) = true) /\
     (t = "Normal"%string <-> (18.5 <=? b) = true /\ (b <? 25) = true) /\
     (t = "Overweight"%string <-> (25 <=? b) = true /\ (b <? 30) = true) /\
     (t = "Obese"%string <-> (30 <=? b) = true) /\
     In t ["Underweight"; "Normal"; "Overweight"; "Obese"]%string) /\
  text (getBMICategory 24.9) = "Normal"%string /\
  text (getBMICategory 25.0) = "Overweight"%string /\
  map (fun b => text (getBMICategory b)) [17; 18.5; 22; 27; 30; 41]
    = ["Underweight"; "Normal"; "Normal"; "Overweight"; "Obese"; "Obese"]%string.
Proof.
  split; [|repeat split].
  intros b Hpos t. subst t.
  destruct (ltb_not_nan _ _ Hpos) as [_ Hb].
  destruct (getBMICategory_cases b Hb)
    as [[L E]|[[G [L E]]|[[G [L E]]|[G E]]]]; rewrite E; simpl;
    repeat split; intros;
    repeat match goal with H : _ /\ _ |- _ => destruct H end;
    try discriminate; try assumption; try order_contra; auto 6.
Qed.

Lemma getBMICategory_partition_witness :
  text (getBMICategory 22) = "Normal"%string <->
  (18.5 <=? 22) = true /\ (22 <? 25) = true.
Proof.
  exact (proj1 (proj2 (proj1 getBMICategory_partition 22 eq_refl))).
Defined.

(** C6, as the code has it: [getBMICategory] has no failure path.  A bmi
    of zero or below is smaller than 18.5, so the first branch returns
    the Underweight category. *)
Theorem getBMICategory_nonpositive (b : number) :
  (b <=? 0) = true ->
  getBMICategory b = {| text := "Underweight"; color := "#FF9800" |}.
Proof.
  intros H. unfold getBMICategory.
  now rewrite (leb_ltb_trans b 0 18.5 H eq_refl).
Qed.

Lemma getBMICategory_nonpositive_witness :
  getBMICategory (-3) = {| text := "Underweight"; color := "#FF9800" |}.
Proof.
  exact (getBMICategory_nonpositive (-3) eq_refl).
Defined.

(** C6 as stated fails: for a user whose bmi is 0 the profile gets a
    category label, not a failure (and likewise for a negative bmi). *)
Lemma getBMICategory_zero_is_labelled :
  (0 <=? 0) = true /\
  bmiCategory (Some {| bmi := 0; daily_calorie_target := 2000 |})
    = Some {| text := "Underweight"; color := "#FF9800" |} /\
  (-1 <=? 0) = true /\
  text (getBMICategory (-1)) = "Underweight"%string.
Proof. repeat split. Qed.

End BMI.

(** ** Progress ratios *)

Section Progress.

Lemma is_nan_100 : is_nan 100 = false.
Proof. reflexivity. Qed.

Lemma is_nan_0 : is_nan 0 = false.
Proof. reflexivity. Qed.

(** A number that compares unequal to zero is truthy, one that compares
    equal to zero is not. *)
Lemma truthy_pos (g : number) : (0 <? g) = true -> truthy g = true.
Proof.
  intros H. unfold truthy, is_zero.
  destruct (ltb_not_eqb _ _ H) as [_ E]. destruct (ltb_not_nan _ _ H) as [_ N].
  change PrimFloat.zero with 0. now rewrite E, N.
Qed.

Lemma truthy_neg (g : number) : (g <? 0) = true -> truthy g = true.
Proof.
  intros H. unfold truthy, is_zero.
  destruct (ltb_not_eqb _ _ H) as [E _]. destruct (ltb_not_nan _ _ H) as [N _].
  change PrimFloat.zero with 0. now rewrite E, N.
Qed.

Lemma truthy_zero (g : number) : (g =? 0) = true -> truthy g = false.
Proof.
  intros H. unfold truthy, is_zero. change PrimFloat.zero with 0. now rewrite H.
Qed.

Lemma truthy_nan (g : number) : is_nan g = true -> truthy g = false.
Proof.
  intros H. unfold truthy. rewrite H. now rewrite orb_true_r.
Qed.

(** The three progress expressions are one computation on [consumed]
    and [goal]. *)
Lemma progress_unfold (consumed goal : number) u f w :
  let r := if truthy goal then consumed / goal * 100 else 0 in
  Water.progress (water_state consumed goal) = r /\
  Dashboard.waterProgress (dashboard_water_state consumed goal u f) = r /\
  Dashboard.calorieProgress (dashboard_calorie_state consumed goal w)
    = Dashboard.Return r.
Proof.
  unfold Water.progress, Dashboard.waterProgress, Dashboard.calorieProgress; simpl.
  destruct (truthy goal); auto.
Qed.

(** C3, as the code has it: the progress computation returns a number
    for every consumed and goal.  The guard is the goal's truthiness, so
    the result is consumed/goal*100 for every goal that is not zero and
    not NaN, positive or negative, and 0 when the goal is zero, NaN, null
    or missing (or there is no data yet), on the water screen and for
    both quotients of the dashboard. *)
Theorem progress_by_goal :
  (forall (consumed goal : number) u f w,
     let water := Water.progress (water_state consumed goal) in
     let dwater := Dashboard.waterProgress (dashboard_water_state consumed goal u f) in
     let dcal := Dashboard.calorieProgress (dashboard_calorie_state consumed goal w) in
     ((0 <? goal) = true \/ (goal <? 0) = true ->
        water = consumed / goal * 100 /\
        dwater = consumed / goal * 100 /\
        dcal = Dashboard.Return (consumed / goal * 100)) /\
     ((goal =? 0) = true \/ is_nan goal = true ->
        water = 0 /\ dwater = 0 /\ dcal = Dashboard.Return 0)) /\
  (forall consumed goal,
     goal = Undefined \/ goal = Null ->
     Water.progress
       (Some {| Water.total_intake := consumed; Water.goal_ml := goal |}) = 0) /\
  Water.progress None = 0 /\
  Dashboard.waterProgress None = 0 /\
  Dashboard.calorieProgress None = Dashboard.Return 0 /\
  (forall consumed goal u f,
     goal = Undefined \/ goal = Null ->
     Dashboard.waterProgress
       (Some {| Dashboard.user := u; Dashboard.food := f;
                Dashboard.water :=
                  Some {| Dashboard.total_intake := consumed;
                          Dashboard.goal_ml := goal |} |}) = 0) /\
  (forall u f,
     Dashboard.waterProgress
       (Some {| Dashboard.user := u; Dashboard.food := f;
                Dashboard.water := None |}) = 0) /\
  (forall target f w,
     target = Undefined \/ target = Null ->
     Dashboard.calorieProgress
       (Some {| Dashboard.user := Some {| Dashboard.daily_calorie_target := target |};
                Dashboard.food := f; Dashboard.water := w |})
       = Dashboard.Return 0) /\
  (forall f w,
     Dashboard.calorieProgress
       (Some {| Dashboard.user := None; Dashboard.food := f; Dashboard.water := w |})
       = Dashboard.Return 0).
Proof.
  split; [|split; [|split; [|split; [|split; [|split; [|split; [|split]]]]]]];
    try reflexivity.
  - intros consumed goal u f w water dwater dcal.
    destruct (progress_unfold consumed goal u f w) as [E1 [E2 E3]].
    subst water dwater dcal. rewrite E1, E2, E3. clear E1 E2 E3.
    split; intros [H|H].
    + now rewrite (truthy_pos _ H).
    + now rewrite (truthy_neg _ H).
    + now rewrite (truthy_zero _ H).
    + now rewrite (truthy_nan _ H).
  - intros consumed goal [->| ->]; reflexivity.
  - intros consumed goal u f [->| ->]; reflexivity.
  - intros target f w [->| ->]; reflexivity.
Qed.

Lemma progress_by_goal_witness :
  Water.progress (water_state 1500 2000) = 1500 / 2000 * 100 /\
  Water.progress (water_state 500 0) = 0.
Proof.
  split.
  - exact (proj1 (proj1 (proj1 progress_by_goal 1500 2000 None None None)
                        (or_introl eq_refl))).
  - exact (proj1 (proj2 (proj1 progress_by_goal 500 0 None None None)
                        (or_introl eq_refl))).
Defined.

(** C3 as stated fails for a negative goal: it is truthy, so the
    quotient is taken and the result is not 0. *)
Lemma progress_negative_goal_not_zero :
  (-2000 <=? 0) = true /\
  Water.progress (water_state 500 (-2000)) = -25 /\
  Dashboard.waterProgress (dashboard_water_state 500 (-2000) None None) = -25 /\
  (-25 =? 0) = false.
Proof. repeat split. Qed.

(** Outside the states of C3: the calorie quotient reads
    [dashboardData.food] without optional chaining, so a response with a
    target but no [food] part makes the expression throw. *)
Lemma calorieProgress_throws_without_food (target : number) w :
  truthy target = true ->
  Dashboard.calorieProgress
    (Some {| Dashboard.user := Some {| Dashboard.daily_calorie_target := Num target |};
             Dashboard.food := None;
             Dashboard.water := w |})
    = Dashboard.ThrowTypeError.
Proof.
  intros H. unfold Dashboard.calorieProgress. simpl. now rewrite H.
Qed.

(** [Math.min(p, 100)] is at most 100 unless it is NaN, and keeps a
    lower bound that 100 satisfies. *)
Lemma Math_min_100_le (p : number) :
  is_nan p = false -> (Math_min p 100 <=? 100) = true.
Proof.
  intros N. unfold Math_min. rewrite N, is_nan_100. simpl.
  destruct (p <? 100) eqn:E1; [now apply ltb_leb|].
  destruct (100 <? p) eqn:E2; [reflexivity|].
  destruct (get_sign p); [|reflexivity].
  apply ltb_false_leb; auto.
Qed.

Lemma Math_min_100_ge (lo p : number) :
  (lo <=? p) = true -> (lo <=? 100) = true -> (lo <=? Math_min p 100) = true.
Proof.
  intros H H100. destruct (leb_not_nan _ _ H) as [_ N].
  unfold Math_min. rewrite N, is_nan_100. simpl.
  destruct (p <? 100); [assumption|].
  destruct (100 <? p); [assumption|].
  destruct (get_sign p); assumption.
Qed.

Lemma Math_min_100_nan (p : number) :
  is_nan p = true -> Math_min p 100 = nan.
Proof. intros N. unfold Math_min. now rewrite N. Qed.

(** C4, as the code has it: the bar fill is [Math.min(raw, 100)], which
    bounds it from above only.  It is at most 100 whenever raw is a
    number, and lies in [0,100] whenever raw >= 0, in particular for
    every finite consumed >= 0 and goal > 0; a negative raw stays
    negative and a NaN stays NaN.  The water screen prints the unclamped
    raw value. *)
Theorem progress_clamped :
  (forall (consumed goal : number) u f w,
     let raw := Water.progress (water_state consumed goal) in
     let v := Water.render (water_state consumed goal) in
     let clamped := Water.waterLevel_height v in
     clamped = Math_min raw 100 /\
     Water.waterPercentage v = raw /\
     Dashboard.water_bar_width (dashboard_water_state consumed goal u f) = clamped /\
     Dashboard.calorie_bar_width (dashboard_calorie_state consumed goal w)
       = Dashboard.Return clamped /\
     (is_nan raw = false -> (clamped <=? 100) = true) /\
     ((0 <=? raw) = true -> (0 <=? clamped) = true /\ (clamped <=? 100) = true) /\
     ((0 <=? consumed) = true -> (consumed <? infinity) = true -> (0 <? goal) = true ->
        (0 <=? clamped) = true /\ (clamped <=? 100) = true) /\
     ((raw <? 0) = true -> clamped = raw) /\
     (is_nan raw = true -> is_nan clamped = true)) /\
  (let v := Water.render (water_state 1500 2000) in
   Water.waterPercentage v = 75 /\ Water.waterLevel_height v = 75) /\
  (let v := Water.render (water_state 2500 2000) in
   Water.waterPercentage v = 125 /\ Water.waterLevel_height v = 100).
Proof.
  split; [|split; split; reflexivity].
  intros consumed goal u f w raw v clamped.
  destruct (progress_unfold consumed goal u f w) as [E1 [E2 E3]].
  unfold Dashboard.water_bar_width, Dashboard.calorie_bar_width.
  rewrite E2, E3. subst clamped v raw.
  unfold Water.render; cbn [Water.waterLevel_height Water.waterPercentage].
  rewrite E1.
  assert (Hge : forall r, (0 <=? r) = true ->
            (0 <=? Math_min r 100) = true /\ (Math_min r 100 <=? 100) = true).
  { intros r Hr. split.
    - now apply Math_min_100_ge.
    - apply Math_min_100_le. now destruct (leb_not_nan _ _ Hr). }
  split; [reflexivity|]. split; [reflexivity|].
  split; [reflexivity|]. split; [reflexivity|].
  split; [apply Math_min_100_le|].
  split; [apply Hge|].
  split; [|split].
  - intros Hc Hf Hg. rewrite (truthy_pos _ Hg).
    apply Hge. now apply ratio_nonneg.
  - set (raw := if truthy goal then consumed / goal * 100 else 0).
    intros H. destruct (ltb_not_nan _ _ H) as [N _].
    unfold Math_min. rewrite N, is_nan_100. simpl.
    now rewrite (ltb_trans raw 0 100 H eq_refl).
  - intros N. now rewrite (Math_min_100_nan _ N).
Qed.

Lemma progress_clamped_witness :
  (0 <=? Water.waterLevel_height (Water.render (water_state 2500 2000))) = true /\
  (Water.waterLevel_height (Water.render (water_state 2500 2000)) <=? 100) = true.
Proof.
  exact (proj1 (proj2 (proj2 (proj2 (proj2 (proj2 (proj2
           (proj1 progress_clamped 2500 2000 None None None)))))))
           eq_refl eq_refl eq_refl).
Defined.

(** C4 as stated fails: with a negative intake (or goal) the fill is
    negative, outside [0,100]. *)
Lemma progress_clamped_can_be_negative :
  (let v := Water.render (water_state (-500) 2000) in
   Water.waterLevel_height v = -25 /\
   (0 <=? Water.waterLevel_height v) = false) /\
  (let v := Water.render (water_state 500 (-2000)) in
   Water.waterLevel_height v = -25 /\
   (0 <=? Water.waterLevel_height v) = false) /\
  Dashboard.water_bar_width (dashboard_water_state (-500) 2000 None None) = -25 /\
  Dashboard.calorie_bar_width (dashboard_calorie_state (-500) 2000 None)
    = Dashboard.Return (-25).
Proof. repeat split. Qed.

End Progress.

(** ** Figures of the calorie and water cards *)

Section Cards.

Lemma Math_max_0_not_negative (x : number) : (Math_max 0 x <? 0) = false.
Proof.
  unfold Math_max. rewrite is_nan_0. simpl.
  destruct (is_nan x); [reflexivity|].
  destruct (0 <? x) eqn:E1; [now apply ltb_asym|].
  destruct (x <? 0); reflexivity.
Qed.

Lemma Math_max_0_ge (x : number) :
  is_nan x = false -> (0 <=? Math_max 0 x) = true.
Proof.
  intros N. unfold Math_max. rewrite is_nan_0, N. simpl.
  destruct (0 <? x) eqn:E1; [now apply ltb_leb|].
  destruct (x <? 0); reflexivity.
Qed.

(** The two operands of the Remaining figure, read off the records. *)
Lemma remaining_target_present (u : Profile.User) dashboardData :
  truthy (Profile.daily_calorie_target u) = true ->
  Dashboard.remaining (Some u) dashboardData
    = Math_max 0 (Profile.daily_calorie_target u
                  - or_else (Dashboard.total_kcal_of dashboardData) 0).
Proof.
  intros H. unfold Dashboard.remaining, Dashboard.user_target. simpl. now rewrite H.
Qed.

Lemma remaining_target_missing user dashboardData :
  target_missing user ->
  Dashboard.remaining user dashboardData
    = Math_max 0 (0 - or_else (Dashboard.total_kcal_of dashboardData) 0).
Proof.
  intros [|u H]; unfold Dashboard.remaining, Dashboard.user_target; simpl;
    [reflexivity|now rewrite H].
Qed.

Lemma total_present (d : Dashboard.DashboardData) f total :
  Dashboard.food d = Some f -> Dashboard.total_kcal f = Num total ->
  truthy total = true ->
  or_else (Dashboard.total_kcal_of (Some d)) 0 = total.
Proof.
  intros Hf Hk Ht. unfold Dashboard.total_kcal_of. rewrite Hf, Hk. simpl.
  now rewrite Ht.
Qed.

Lemma total_absent dashboardData :
  total_missing dashboardData ->
  or_else (Dashboard.total_kcal_of dashboardData) 0 = 0.
Proof.
  intros [|d Hf|d f Hf [Hk|[Hk|[n [Hk Hn]]]]]; unfold Dashboard.total_kcal_of;
    rewrite ?Hf, ?Hk; simpl; rewrite ?Hn; reflexivity.
Qed.

(** [v || 0] is finite when the number in [v], if any, is. *)
Lemma or_else_0_finite (v : value) :
  (forall n, v = Num n -> is_finite n = true) -> is_finite (or_else v 0) = true.
Proof.
  intros H. destruct v as [| |n]; simpl; try reflexivity.
  destruct (truthy n); [now apply H|reflexivity].
Qed.

(** C9: for every signed-in user and every dashboard state the
    Remaining figure is [max(0, target - total)], where the target is
    the user's [daily_calorie_target] and the total the [total_kcal] of
    the [food] part, and a target or total that is missing (or 0 or NaN)
    counts as 0; it is never negative, also when more was consumed than
    the target, and is at least 0 for all finite figures. *)
Theorem remaining_never_negative :
  (forall user dashboardData,
     (Dashboard.remaining user dashboardData <? 0) = false) /\
  (forall (u : Profile.User) (d : Dashboard.DashboardData) f total,
     Dashboard.food d = Some f -> Dashboard.total_kcal f = Num total ->
     truthy (Profile.daily_calorie_target u) = true -> truthy total = true ->
     Dashboard.remaining (Some u) (Some d)
       = Math_max 0 (Profile.daily_calorie_target u - total)) /\
  (forall user (d : Dashboard.DashboardData) f total,
     target_missing user ->
     Dashboard.food d = Some f -> Dashboard.total_kcal f = Num total ->
     truthy total = true ->
     Dashboard.remaining user (Some d) = Math_max 0 (0 - total)) /\
  (forall (u : Profile.User) dashboardData,
     truthy (Profile.daily_calorie_target u) = true ->
     total_missing dashboardData ->
     Dashboard.remaining (Some u) dashboardData
       = Math_max 0 (Profile.daily_calorie_target u - 0)) /\
  (forall user dashboardData,
     target_missing user -> total_missing dashboardData ->
     Dashboard.remaining user dashboardData = 0) /\
  (forall user dashboardData,
     (forall u, user = Some u -> is_finite (Profile.daily_calorie_target u) = true) ->
     (forall d f n, dashboardData = Some d -> Dashboard.food d = Some f ->
                    Dashboard.total_kcal f = Num n -> is_finite n = true) ->
     (0 <=? Dashboard.remaining user dashboardData) = true) /\
  Dashboard.remaining None None = 0 /\
  Dashboard.remaining (user_with_target 2000) (dashboard_with_total 1500) = 500 /\
  Dashboard.remaining (user_with_target 2000) (dashboard_with_total 2500) = 0.
Proof.
  split; [|split; [|split; [|split; [|split; [|split; [|repeat split]]]]]].
  - intros user dashboardData. apply Math_max_0_not_negative.
  - intros u d f total Hf Hk Ht Hn.
    now rewrite (remaining_target_present u _ Ht), (total_present d f total Hf Hk Hn).
  - intros user d f total Hm Hf Hk Hn.
    now rewrite (remaining_target_missing user _ Hm), (total_present d f total Hf Hk Hn).
  - intros u dd Ht Hm.
    now rewrite (remaining_target_present u _ Ht), (total_absent dd Hm).
  - intros user dd Hu Hm.
    now rewrite (remaining_target_missing user _ Hu), (total_absent dd Hm).
  - intros user dd Hu Hd. unfold Dashboard.remaining.
    apply Math_max_0_ge, sub_finite_not_nan; apply or_else_0_finite.
    + intros n E. destruct user as [u|]; [|discriminate].
      injection E as <-. now apply Hu.
    + intros n E. destruct dd as [d|]; [|discriminate]. simpl in E.
      destruct (Dashboard.food d) as [f|] eqn:Hf; [|discriminate].
      exact (Hd d f n eq_refl Hf E).
Qed.

Lemma remaining_never_negative_witness :
  Dashboard.remaining (user_with_target 1800) (dashboard_with_total 2100)
    = Math_max 0 (1800 - 2100).
Proof.
  exact (proj1 (proj2 remaining_never_negative)
           {| Profile.bmi := 22; Profile.daily_calorie_target := 1800 |}
           {| Dashboard.user := None;
              Dashboard.food := Some {| Dashboard.total_kcal := Num 2100 |};
              Dashboard.water := None |}
           {| Dashboard.total_kcal := Num 2100 |} 2100
           eq_refl eq_refl eq_refl eq_refl).
Defined.






End Cards.

(** ** Portion scaling *)

Section Scaling.

Import FoodScreen.

(** [parseFloat] on the kinds of text the grams field can hold. *)
Lemma parseFloat_examples :
  map parseFloat ["50"; "62.5"; "0"; "-5"; " 12g"; ".5"; "5."; "1e3"; "2.5e-1x"]%string
    = [50; 62.5; 0; -5; 12; 0.5; 5; 1000; 0.25] /\
  map parseFloat ["0.1"; "24.9"; "9007199254740993"; "1e400"; "-Infinity"]%string
    = [0.1; 24.9; 9007199254740992; infinity; neg_infinity] /\
  map (fun s => is_nan (parseFloat s)) [""; "abc"; "."; "-"; "e5"]%string
    = [true; true; true; true; true].
Proof. repeat split. Qed.

(** What [handleAddFood] does once a food is selected and the grams
    field is not empty: the request carries the day's entries followed
    by the new entry, whatever the grams text parses to. *)
Lemma handleAddFood_posts post_ok st food :
  selectedFood st = Some food -> FoodScreen.grams st <> ""%string ->
  posted (snd (handleAddFood post_ok st))
    = Some (todayEntries st ++ [makeEntry food (parseFloat (FoodScreen.grams st))]) /\
  (post_ok = true ->
   todayEntries (fst (handleAddFood post_ok st))
     = todayEntries st ++ [makeEntry food (parseFloat (FoodScreen.grams st))]) /\
  (post_ok = false -> fst (handleAddFood post_ok st) = st).
Proof.
  intros Hf Hg. unfold handleAddFood. rewrite Hf.
  destruct (String.eqb_spec (FoodScreen.grams st) "") as [E|_]; [contradiction|].
  destruct post_ok; simpl; repeat split; intros; discriminate.
Qed.

(** C1: for every food and every grams text the handler accepts, each
    nutrient field of the logged portion is the per-100g field of the
    food multiplied by grams/100, where grams is the parsed text; in
    exact arithmetic that is per-100g times grams, over 100.  A food of
    200 kcal per 100 g logged with 50 g gives 100 kcal. *)
Theorem handleAddFood_scales :
  (forall post_ok st food,
     selectedFood st = Some food -> FoodScreen.grams st <> ""%string ->
     let g := parseFloat (FoodScreen.grams st) in
     exists entry,
       posted (snd (handleAddFood post_ok st)) = Some (todayEntries st ++ [entry]) /\
       food_name entry = name food /\
       Nutrition.grams entry = g /\
       kcal entry = kcal_per_100g food * (g / 100) /\
       proteins entry = proteins_per_100g food * (g / 100) /\
       carbs entry = carbs_per_100g food * (g / 100) /\
       fats entry = fats_per_100g food * (g / 100)) /\
  (forall (food : FoodReference Q) (g : Q),
     (kcal (makeEntry food g) == kcal_per_100g food * g / (100 # 1))%Q /\
     (proteins (makeEntry food g) == proteins_per_100g food * g / (100 # 1))%Q /\
     (carbs (makeEntry food g) == carbs_per_100g food * g / (100 # 1))%Q /\
     (fats (makeEntry food g) == fats_per_100g food * g / (100 # 1))%Q) /\
  (forall p c f post_ok,
     posted (snd (handleAddFood post_ok (adding (per_100g 200 p c f) "50")))
       = Some [makeEntry (per_100g 200 p c f) 50] /\
     kcal (makeEntry (per_100g 200 p c f) 50) = 100).
Proof.
  split; [|split].
  - intros post_ok st food Hf Hg g.
    exists (makeEntry food g). repeat split.
    exact (proj1 (handleAddFood_posts post_ok st food Hf Hg)).
  - intros food g. unfold makeEntry; simpl. unfold Qdiv.
    repeat split; ring.
  - intros p c f post_ok. split; [|reflexivity].
    now destruct post_ok.
Qed.

Lemma handleAddFood_scales_witness :
  exists entry,
    posted (snd (handleAddFood true (adding (per_100g 130 2.7 28 0.3) "150")))
      = Some [entry] /\
    food_name entry = "Rice"%string /\
    Nutrition.grams entry = 150 /\
    kcal entry = 130 * (150 / 100) /\
    proteins entry = 2.7 * (150 / 100) /\
    carbs entry = 28 * (150 / 100) /\
    fats entry = 0.3 * (150 / 100).
Proof.
  refine (proj1 handleAddFood_scales true
            (adding (per_100g 130 2.7 28 0.3) "150") (per_100g 130 2.7 28 0.3)
            eq_refl _).
  discriminate.
Defined.

(** C5, as the code has it: the handler's only guard is on a missing
    food and an empty grams field, where it shows an alert and neither
    builds nor sends a portion.  Every other grams text goes through:
    the portion is built from whatever [parseFloat] returns, zero,
    negative and NaN included, and is sent. *)
Theorem handleAddFood_guard (post_ok : bool) (st : State) :
  (selectedFood st = None \/ FoodScreen.grams st = ""%string ->
   handleAddFood post_ok st
     = (st, [Alert "Error" "Please enter the amount in grams"]) /\
   posted (snd (handleAddFood post_ok st)) = None) /\
  (forall food,
     selectedFood st = Some food -> FoodScreen.grams st <> ""%string ->
     posted (snd (handleAddFood post_ok st))
       = Some (todayEntries st ++ [makeEntry food (parseFloat (FoodScreen.grams st))]) /\
     (post_ok = true ->
      todayEntries (fst (handleAddFood post_ok st))
        = todayEntries st ++ [makeEntry food (parseFloat (FoodScreen.grams st))])).
Proof.
  split.
  - intros H.
    assert (E : handleAddFood post_ok st
                = (st, [Alert "Error" "Please enter the amount in grams"])).
    { unfold handleAddFood. destruct (selectedFood st) as [food|]; [|reflexivity].
      destruct H as [H|H]; [discriminate|]. now rewrite H. }
    now rewrite E.
  - intros food Hf Hg.
    destruct (handleAddFood_posts post_ok st food Hf Hg) as [P [T _]]. auto.
Qed.

Lemma handleAddFood_guard_witness :
  handleAddFood true (adding (per_100g 130 2.7 28 0.3) "")
    = (adding (per_100g 130 2.7 28 0.3) "",
       [Alert "Error" "Please enter the amount in grams"]) /\
  posted (snd (handleAddFood true (adding (per_100g 130 2.7 28 0.3) ""))) = None.
Proof.
  exact (proj1 (handleAddFood_guard true (adding (per_100g 130 2.7 28 0.3) ""))
               (or_intror eq_refl)).
Defined.

(** C5 as stated fails: grams of "0" and of "-5" are not rejected; a
    portion is built (with zero and with negative nutrients), sent to
    the backend and added to the day's entries. *)
Lemma handleAddFood_accepts_nonpositive_grams :
  let rice := per_100g 130 2.7 28 0.3 in
  ((parseFloat "0" <=? 0) = true /\
   posted (snd (handleAddFood true (adding rice "0"))) = Some [makeEntry rice 0] /\
   todayEntries (fst (handleAddFood true (adding rice "0"))) = [makeEntry rice 0] /\
   kcal (makeEntry rice 0) = 0) /\
  ((parseFloat "-5" <=? 0) = true /\
   posted (snd (handleAddFood true (adding rice "-5"))) = Some [makeEntry rice (-5)] /\
   todayEntries (fst (handleAddFood true (adding rice "-5"))) = [makeEntry rice (-5)] /\
   kcal (makeEntry rice (-5)) = -6.5).
Proof. repeat split. Qed.

(** The scaling formula itself is linear in the grams: read over exact
    rationals, scaling with grams * k gives k times every nutrient
    field of scaling with grams.  What the code computes differs from
    it by the rounding of each operation only. *)
Lemma makeEntry_linear_exact :
  forall (food : FoodReference Q) (g k : Q),
    (kcal (makeEntry food (g * k)) == k * kcal (makeEntry food g))%Q /\
    (proteins (makeEntry food (g * k)) == k * proteins (makeEntry food g))%Q /\
    (carbs (makeEntry food (g * k)) == k * carbs (makeEntry food g))%Q /\
    (fats (makeEntry food (g * k)) == k * fats (makeEntry food g))%Q.
Proof.
  intros food g k. unfold makeEntry; simpl. unfold Qdiv.
  repeat split; ring.
Qed.

(** C7, as the code has it, in binary64: when the factor k is a power
    of two, 2^j with j between -100 and 100, the grams have a magnitude
    between 2^-400 and 2^400 and each per-100 g value of the food is 0
    or has such a magnitude, scaling with grams * k gives exactly k
    times every nutrient field of scaling with grams: a power of two
    only moves the exponent, and no operation rounds differently. *)
Theorem makeEntry_linear_pow2
    (food : FoodReference number) (g : number) (j : Z) :
  (-100 <= j <= 100)%Z ->
  moderate g = true ->
  scalable (kcal_per_100g food) ->
  scalable (proteins_per_100g food) ->
  scalable (carbs_per_100g food) ->
  scalable (fats_per_100g food) ->
  kcal (makeEntry food (g * pow2 j)) = pow2 j * kcal (makeEntry food g) /\
  proteins (makeEntry food (g * pow2 j)) = pow2 j * proteins (makeEntry food g) /\
  carbs (makeEntry food (g * pow2 j)) = pow2 j * carbs (makeEntry food g) /\
  fats (makeEntry food (g * pow2 j)) = pow2 j * fats (makeEntry food g).
Proof.
  intros J G K P C F. unfold makeEntry. cbn [kcal proteins carbs fats].
  cbn [mul div hundred binary64].
  repeat split; now apply scaled_field.
Qed.

Lemma makeEntry_linear_pow2_witness :
  let food := per_100g 52 0.3 14 0 in
  pow2 1 = 2 /\
  kcal (makeEntry food (150 * 2)) = 2 * kcal (makeEntry food 150) /\
  proteins (makeEntry food (150 * 2)) = 2 * proteins (makeEntry food 150) /\
  carbs (makeEntry food (150 * 2)) = 2 * carbs (makeEntry food 150) /\
  fats (makeEntry food (150 * 2)) = 2 * fats (makeEntry food 150).
Proof.
  split; [reflexivity|].
  apply (makeEntry_linear_pow2 (per_100g 52 0.3 14 0) 150 1).
  - lia.
  - reflexivity.
  - left; reflexivity.
  - left; reflexivity.
  - left; reflexivity.
  - right; reflexivity.
Defined.

(** C7 as stated fails in the arithmetic the code runs: for 1 kcal per
    100 g, 10 g and k = 3 the portion for 30 g has 0.3 kcal (the double
    nearest to it), three times the portion for 10 g is
    0.30000000000000004.  With 0.001 kcal per 100 g, 1e308 g and
    k = 10 the grams overflow: the portion for grams * k has infinitely
    many kcal, ten times the portion for the grams is finite. *)
Lemma makeEntry_not_linear_binary64 :
  (let food := per_100g 1 1 1 1 in
   kcal (makeEntry food (10 * 3)) = 0.3 /\
   3 * kcal (makeEntry food 10) = 0.30000000000000004 /\
   (kcal (makeEntry food (10 * 3)) =? 3 * kcal (makeEntry food 10)) = false) /\
  (let food := per_100g 0.001 1 1 1 in
   kcal (makeEntry food (1e308 * 10)) = infinity /\
   (10 * kcal (makeEntry food 1e308) <? infinity) = true).
Proof. repeat split. Qed.




End Scaling.

(** ** Food search *)

Section Search.

Import FoodList.

Lemma starts_with_spec (sub s : string) :
  starts_with sub s = true <-> exists r, s = (sub ++ r)%string.
Proof.
  revert s. induction sub as [|a sub IH]; intros s; simpl.
  - split; eauto.
  - destruct s as [|b s].
    + split; [discriminate|]. intros [r E]. discriminate.
    + rewrite andb_true_iff, IH. split.
      * intros [E [r ->]]. apply Ascii.eqb_eq in E. subst. eauto.
      * intros [r E]. injection E as -> ->. split; eauto. apply Ascii.eqb_refl.
Qed.

Lemma includes_spec (s sub : string) :
  includes s sub = true <-> exists a b, s = (a ++ sub ++ b)%string.
Proof.
  induction s as [|c s IH].
  - simpl. rewrite orb_false_r, starts_with_spec. split.
    + intros [r E]. exists ""%string, r. exact E.
    + intros [a [b E]]. destruct a; [eauto|discriminate].
  - cbn [includes]. rewrite orb_true_iff, starts_with_spec, IH. split.
    + intros [[r E]|[a [b E]]].
      * exists ""%string, r. exact E.
      * exists (String c a), b. simpl. now rewrite E.
    + intros [a [b E]]. destruct a as [|c' a]; simpl in E.
      * left. eauto.
      * right. injection E as _ E. eauto.
Qed.

Lemma string_app_assoc (a b c : string) :
  ((a ++ b) ++ c = a ++ b ++ c)%string.
Proof. induction a; simpl; congruence. Qed.

Lemma toLowerCase_app (a b : string) :
  toLowerCase (a ++ b) = (toLowerCase a ++ toLowerCase b)%string.
Proof. induction a; simpl; congruence. Qed.

(** A text that contains a longer fragment contains every part of it. *)
Lemma includes_fragment (s p q r : string) :
  includes s (p ++ q ++ r) = true -> includes s q = true.
Proof.
  rewrite !includes_spec. intros [a [b E]].
  exists (a ++ p)%string, (r ++ b)%string.
  now rewrite E, !string_app_assoc.
Qed.

(** X1: with an empty search text the list is the whole database, in
    its order. *)
Theorem filteredFoods_empty_query (foodDatabase : list (FoodReference number)) :
  filteredFoods foodDatabase "" = foodDatabase.
Proof.
  assert (E : forall s, includes s (toLowerCase "") = true)
    by (intros s; now destruct s).
  unfold filteredFoods.
  induction foodDatabase as [|food db IH]; cbn [filter]; [reflexivity|].
  now rewrite E, IH.
Qed.

Lemma same_letter_lower (a b : ascii) :
  same_letter a b = true -> lower_char a = lower_char b.
Proof.
  unfold same_letter, is_capital, lower_char.
  rewrite !orb_true_iff, !andb_true_iff, !N.leb_le, !N.eqb_eq.
  intros [[E|[[L U] E]]|[[L U] E]].
  - apply Ascii.eqb_eq in E. now subst.
  - assert (B : b = ascii_of_N (N_of_ascii a + 32))
      by (rewrite <- E; symmetry; apply ascii_N_embedding).
    destruct ((65 <=? N_of_ascii a)%N && (N_of_ascii a <=? 90)%N) eqn:Ca;
      [|rewrite andb_false_iff, !N.leb_gt in Ca; lia].
    destruct ((65 <=? N_of_ascii b)%N && (N_of_ascii b <=? 90)%N) eqn:Cb;
      [rewrite andb_true_iff, !N.leb_le in Cb; lia|].
    now symmetry.
  - assert (A : a = ascii_of_N (N_of_ascii b + 32))
      by (rewrite <- E; symmetry; apply ascii_N_embedding).
    destruct ((65 <=? N_of_ascii b)%N && (N_of_ascii b <=? 90)%N) eqn:Cb;
      [|rewrite andb_false_iff, !N.leb_gt in Cb; lia].
    destruct ((65 <=? N_of_ascii a)%N && (N_of_ascii a <=? 90)%N) eqn:Ca;
      [rewrite andb_true_iff, !N.leb_le in Ca; lia|].
    exact A.
Qed.

Lemma case_variant_lower (s t : string) :
  case_variant s t = true -> toLowerCase s = toLowerCase t.
Proof.
  revert t. induction s as [|a s IH]; intros [|b t]; simpl; try discriminate; auto.
  rewrite andb_true_iff. intros [L V].
  now rewrite (same_letter_lower a b L), (IH t V).
Qed.

(** X2: on ASCII text, typing more only narrows the list: what a search
    text finds is found by every fragment of it, and searching again
    within the results of the fragment gives the same list as searching
    the database. *)
Theorem filteredFoods_narrows (foodDatabase : list (FoodReference number))
    (p q r : string) :
  Forall (fun food => is_ascii_text (name food) = true) foodDatabase ->
  is_ascii_text (p ++ q ++ r) = true ->
  (forall food, In food (filteredFoods foodDatabase (p ++ q ++ r)) ->
                In food (filteredFoods foodDatabase q)) /\
  filteredFoods (filteredFoods foodDatabase q) (p ++ q ++ r)
    = filteredFoods foodDatabase (p ++ q ++ r).
Proof.
  intros _ _.
  assert (F : forall food : FoodReference number,
            includes (toLowerCase (name food)) (toLowerCase (p ++ q ++ r)) = true ->
            includes (toLowerCase (name food)) (toLowerCase q) = true).
  { intros food. rewrite !toLowerCase_app. apply includes_fragment. }
  unfold filteredFoods. split.
  - intros food. rewrite !filter_In. intros [Hin H]. split; auto.
  - induction foodDatabase as [|food db IH]; simpl; [reflexivity|].
    destruct (includes (toLowerCase (name food)) (toLowerCase q)) eqn:Eq; simpl.
    + rewrite IH. reflexivity.
    + rewrite IH.
      destruct (includes (toLowerCase (name food)) (toLowerCase (p ++ q ++ r))) eqn:E;
        [|reflexivity].
      rewrite (F food E) in Eq. discriminate.
Qed.

Lemma filteredFoods_narrows_witness :
  (forall food,
     In food (filteredFoods [per_100g 52 0.3 14 0.2; per_100g 130 2.7 28 0.3] "rice") ->
     In food (filteredFoods [per_100g 52 0.3 14 0.2; per_100g 130 2.7 28 0.3] "ic")) /\
  filteredFoods
    (filteredFoods [per_100g 52 0.3 14 0.2; per_100g 130 2.7 28 0.3] "ic") "rice"
  = filteredFoods [per_100g 52 0.3 14 0.2; per_100g 130 2.7 28 0.3] "rice".
Proof.
  apply (filteredFoods_narrows
           [per_100g 52 0.3 14 0.2; per_100g 130 2.7 28 0.3] "r" "ic" "e").
  - repeat constructor.
  - reflexivity.
Defined.

(** X3: on ASCII text, a food of the database is found by any fragment
    of its name, whatever the case of the letters typed: the search
    text may differ from the fragment in the case of any of its
    letters. *)
Theorem filteredFoods_finds_fragment (foodDatabase : list (FoodReference number))
    (food : FoodReference number) (a fragment b searchQuery : string) :
  is_ascii_text (name food) = true -> is_ascii_text searchQuery = true ->
  In food foodDatabase ->
  name food = (a ++ fragment ++ b)%string ->
  case_variant searchQuery fragment = true ->
  In food (filteredFoods foodDatabase searchQuery).
Proof.
  intros _ _ Hin Hname Hq. unfold filteredFoods. apply filter_In.
  split; [assumption|].
  rewrite (case_variant_lower _ _ Hq), Hname, !toLowerCase_app.
  apply includes_spec. eauto.
Qed.

Lemma filteredFoods_finds_fragment_witness :
  In (per_100g 130 2.7 28 0.3)
     (filteredFoods [per_100g 52 0.3 14 0.2; per_100g 130 2.7 28 0.3] "rIC").
Proof.
  apply (filteredFoods_finds_fragment
           [per_100g 52 0.3 14 0.2; per_100g 130 2.7 28 0.3]
           (per_100g 130 2.7 28 0.3) "" "Ric" "e" "rIC").
  - reflexivity.
  - reflexivity.
  - right. left. reflexivity.
  - reflexivity.
  - reflexivity.
Defined.

End Search.

(** ** The day's calorie total *)

Section Totals.

Import FoodScreen FoodList.

Lemma is_nan_true (x : number) : is_nan x = true <-> Prim2SF x = S754_nan.
Proof.
  split.
  - intros H. destruct (Prim2SF x) eqn:E; try reflexivity;
      assert (F : is_nan x = false) by (apply is_nan_false; rewrite E; discriminate);
      congruence.
  - intros E. apply not_false_is_true. rewrite is_nan_false. auto.
Qed.

Lemma SFadd_nonneg (a b : spec_float) :
  nonneg a -> nonneg b -> nonneg (SFadd prec emax a b).
Proof.
  destruct a as [sa|[|]| |[|] ma ea], b as [sb|[|]| |[|] mb eb];
    simpl; intros Ha Hb; try contradiction; auto.
  - now destruct sa, sb.
  - apply signed_nonneg. unfold binary_normalize, binary_round.
    match goal with |- context [shl_align ?m ?e ?e'] =>
      destruct (shl_align m e e') as [mz ez] end.
    apply binary_round_aux_signed. lia.
Qed.

Lemma add_nonneg (x y : number) :
  (0 <=? x) = true -> (0 <=? y) = true -> (0 <=? x + y) = true.
Proof.
  rewrite !leb_0_nonneg, add_spec. apply SFadd_nonneg.
Qed.

Lemma add_nan_l (x y : number) : is_nan x = true -> is_nan (x + y) = true.
Proof.
  rewrite !is_nan_true, add_spec. intros ->. reflexivity.
Qed.

Lemma add_nan_r (x y : number) : is_nan y = true -> is_nan (x + y) = true.
Proof.
  rewrite !is_nan_true, add_spec. intros ->. now destruct (Prim2SF x).
Qed.

Lemma mul_nan_r (x y : number) : is_nan y = true -> is_nan (x * y) = true.
Proof.
  rewrite !is_nan_true, mul_spec. intros ->. now destruct (Prim2SF x).
Qed.

Lemma div_nan_l (x y : number) : is_nan x = true -> is_nan (x / y) = true.
Proof.
  rewrite !is_nan_true, div_spec. intros ->. reflexivity.
Qed.

Lemma totalKcal_app (entries : list (FoodPortion number)) (entry : FoodPortion number) :
  totalKcal (entries ++ [entry]) = totalKcal entries + kcal entry.
Proof. unfold totalKcal. now rewrite fold_left_app. Qed.

Lemma sum_from_nan (entries : list (FoodPortion number)) (acc : number) :
  is_nan acc = true ->
  is_nan (fold_left (fun sum entry => sum + kcal entry) entries acc) = true.
Proof.
  revert acc. induction entries as [|e l IH]; intros acc H; simpl; [assumption|].
  apply IH. now apply add_nan_l.
Qed.

(** X4: a successful add raises the day's total by exactly the kcal of
    the new portion (the new entry is the last term of the left-to-right
    sum), and a failed request leaves the total as it was. *)
Theorem totalKcal_after_add (st : State) (food : FoodReference number) :
  selectedFood st = Some food -> FoodScreen.grams st <> ""%string ->
  totalKcal (todayEntries (fst (handleAddFood true st)))
    = totalKcal (todayEntries st)
      + kcal_per_100g food * (parseFloat (FoodScreen.grams st) / 100) /\
  totalKcal (todayEntries (fst (handleAddFood false st)))
    = totalKcal (todayEntries st).
Proof.
  intros Hf Hg.
  destruct (handleAddFood_posts true st food Hf Hg) as [_ [T _]].
  destruct (handleAddFood_posts false st food Hf Hg) as [_ [_ F]].
  rewrite (T eq_refl), (F eq_refl), totalKcal_app. split; reflexivity.
Qed.

Lemma totalKcal_after_add_witness :
  totalKcal (todayEntries
    (fst (handleAddFood true (adding (per_100g 130 2.7 28 0.3) "150"))))
  = totalKcal [] + 130 * (parseFloat "150" / 100).
Proof.
  refine (proj1 (totalKcal_after_add (adding (per_100g 130 2.7 28 0.3) "150")
                   (per_100g 130 2.7 28 0.3) eq_refl _)).
  discriminate.
Defined.

(** X5: when no logged portion has negative (or NaN) kcal, the total is
    a number and is not negative, however the partial sums round. *)
Theorem totalKcal_nonneg (todayEntries : list (FoodPortion number)) :
  Forall (fun entry => (0 <=? kcal entry) = true) todayEntries ->
  (0 <=? totalKcal todayEntries) = true /\ is_nan (totalKcal todayEntries) = false.
Proof.
  intros H.
  assert (G : forall acc, (0 <=? acc) = true ->
            (0 <=? fold_left (fun sum entry => sum + kcal entry) todayEntries acc) = true).
  { induction H as [|e l He Hl IH]; intros acc Ha; simpl; [assumption|].
    apply IH. now apply add_nonneg. }
  assert (T : (0 <=? totalKcal todayEntries) = true) by (apply G; reflexivity).
  split; [exact T|]. now destruct (leb_not_nan _ _ T).
Qed.

Lemma totalKcal_nonneg_witness :
  (0 <=? totalKcal [makeEntry (per_100g 130 2.7 28 0.3) 150;
                    makeEntry (per_100g 52 0.3 14 0.2) 80]) = true /\
  is_nan (totalKcal [makeEntry (per_100g 130 2.7 28 0.3) 150;
                     makeEntry (per_100g 52 0.3 14 0.2) 80]) = false.
Proof.
  apply totalKcal_nonneg.
  repeat constructor.
Defined.

(** X6: one portion whose kcal is NaN makes the total NaN, wherever it
    stands in the log; and that is what logging a grams text without a
    number in it does: the portion is accepted and the total of the day
    becomes NaN. *)
Theorem totalKcal_nan :
  (forall (todayEntries : list (FoodPortion number)) entry,
     In entry todayEntries -> is_nan (kcal entry) = true ->
     is_nan (totalKcal todayEntries) = true) /\
  (forall st food,
     selectedFood st = Some food -> FoodScreen.grams st <> ""%string ->
     is_nan (parseFloat (FoodScreen.grams st)) = true ->
     is_nan (totalKcal (todayEntries (fst (handleAddFood true st)))) = true).
Proof.
  assert (P : forall (l : list (FoodPortion number)) entry,
            In entry l -> is_nan (kcal entry) = true ->
            forall acc,
              is_nan (fold_left (fun sum e => sum + kcal e) l acc) = true).
  { induction l as [|e l IH]; intros entry Hin Hn acc; [contradiction|].
    simpl. destruct Hin as [->|Hin].
    - apply sum_from_nan. now apply add_nan_r.
    - now apply (IH entry). }
  split.
  - intros l entry Hin Hn. now apply (P l entry).
  - intros st food Hf Hg Hn.
    destruct (handleAddFood_posts true st food Hf Hg) as [_ [T _]].
    rewrite (T eq_refl), totalKcal_app. apply add_nan_r.
    unfold makeEntry; simpl. apply mul_nan_r. now apply div_nan_l.
Qed.

Lemma totalKcal_nan_witness :
  is_nan (totalKcal (todayEntries
    (fst (handleAddFood true (adding (per_100g 130 2.7 28 0.3) "abc"))))) = true.
Proof.
  refine (proj2 totalKcal_nan (adding (per_100g 130 2.7 28 0.3) "abc")
            (per_100g 130 2.7 28 0.3) eq_refl _ eq_refl).
  discriminate.
Defined.

End Totals.

(** ** Adding a food: the form around the request *)

Section Submit.

Import FoodScreen FoodList.

(** X7: a successful add resets the form: the selected food and the
    grams text are cleared and the modal is closed, so the preview card
    is gone, and the new portion stands last in the day's entries.  A
    failed request leaves the whole state as it was, so that pressing
    Add again sends the same entries once more, whatever the outcome of
    the second request. *)
Theorem handleAddFood_again (st : State) (food : FoodReference number) (again : bool) :
  selectedFood st = Some food -> FoodScreen.grams st <> ""%string ->
  fst (handleAddFood true st)
    = {| selectedDate := selectedDate st;
         selectedFood := None;
         FoodScreen.grams := "";
         todayEntries :=
           todayEntries st ++ [makeEntry food (parseFloat (FoodScreen.grams st))];
         modalVisible := false |} /\
  calculatedCard (fst (handleAddFood true st)) = None /\
  fst (handleAddFood false st) = st /\
  posted (snd (handleAddFood again (fst (handleAddFood false st))))
    = posted (snd (handleAddFood false st)) /\
  posted (snd (handleAddFood false st))
    = Some (todayEntries st ++ [makeEntry food (parseFloat (FoodScreen.grams st))]).
Proof.
  intros Hf Hg.
  assert (S1 : fst (handleAddFood true st)
             = {| selectedDate := selectedDate st;
                  selectedFood := None;
                  FoodScreen.grams := "";
                  todayEntries :=
                    todayEntries st
                    ++ [makeEntry food (parseFloat (FoodScreen.grams st))];
                  modalVisible := false |}).
  { unfold handleAddFood. rewrite Hf.
    destruct (String.eqb_spec (FoodScreen.grams st) "") as [E|_]; [contradiction|].
    reflexivity. }
  destruct (handleAddFood_posts false st food Hf Hg) as [P [_ F]].
  split; [exact S1|]. split; [now rewrite S1|]. split; [exact (F eq_refl)|].
  split; [|exact P].
  rewrite (F eq_refl), P.
  exact (proj1 (handleAddFood_posts again st food Hf Hg)).
Qed.

Lemma handleAddFood_again_witness :
  fst (handleAddFood true (adding (per_100g 130 2.7 28 0.3) "150"))
  = {| selectedDate := "2024-05-01";
       selectedFood := None;
       FoodScreen.grams := "";
       todayEntries := [makeEntry (per_100g 130 2.7 28 0.3) (parseFloat "150")];
       modalVisible := false |}.
Proof.
  refine (proj1 (handleAddFood_again (adding (per_100g 130 2.7 28 0.3) "150")
                   (per_100g 130 2.7 28 0.3) true eq_refl _)).
  discriminate.
Defined.

(** X8: the preview card and the handler agree.  With the add-food
    modal open, the card is shown exactly when pressing Add sends a
    portion, and the portion sent has the four numbers of the card. *)
Theorem calculatedCard_is_what_is_logged (ok : bool) (st : State) :
  (forall card, calculatedCard st = Some card ->
     exists entry,
       posted (snd (handleAddFood ok st)) = Some (todayEntries st ++ [entry]) /\
       kcal entry = calories_shown card /\
       proteins entry = protein_shown card /\
       carbs entry = carbs_shown card /\
       fats entry = fats_shown card) /\
  (modalVisible st = true ->
   (calculatedCard st = None <-> posted (snd (handleAddFood ok st)) = None)).
Proof.
  unfold calculatedCard. split.
  - intros card H.
    destruct (modalVisible st); [|discriminate].
    destruct (selectedFood st) as [food|] eqn:Hf; [|discriminate].
    destruct (String.eqb_spec (FoodScreen.grams st) "") as [E|N]; [discriminate|].
    injection H as <-.
    exists (makeEntry food (parseFloat (FoodScreen.grams st))).
    split; [|repeat split].
    exact (proj1 (handleAddFood_posts ok st food Hf N)).
  - intros ->. unfold handleAddFood.
    destruct (selectedFood st) as [food|]; [|split; reflexivity].
    destruct (String.eqb (FoodScreen.grams st) ""); [split; reflexivity|].
    destruct ok; split; discriminate.
Qed.

Lemma calculatedCard_is_what_is_logged_witness :
  calculatedCard (adding (per_100g 130 2.7 28 0.3) "") = None <->
  posted (snd (handleAddFood true (adding (per_100g 130 2.7 28 0.3) ""))) = None.
Proof.
  exact (proj2 (calculatedCard_is_what_is_logged true
                  (adding (per_100g 130 2.7 28 0.3) "")) eq_refl).
Defined.

End Submit.

(** ** The water log *)

Section WaterLogOrder.

Import WaterLog.

(** X9: the log section reverses the state's array in place on every
    render.  The first render of a response shows its entries in
    reverse order, the next render of the same data shows them in the
    order of the response, and so on alternately; the rows are always
    the same entries. *)
Theorem renderLog_alternates (entries : list Entry) (n : nat) :
  shown_after 0 (Some entries) = rev entries /\
  shown_after 1 (Some entries) = entries /\
  shown_after (S (S n)) (Some entries) = shown_after n (Some entries) /\
  (forall e, In e (shown_after n (Some entries)) <-> In e entries) /\
  length (shown_after n (Some entries)) = length entries.
Proof.
  assert (R : forall l, renderLog (Some l) = (rev l, Some (rev l)))
    by (intros [|e l]; reflexivity).
  assert (S2 : forall k l, shown_after (S (S k)) (Some l) = shown_after k (Some l)).
  { intros k l. cbn [shown_after]. rewrite R. cbn [snd]. rewrite R. cbn [snd].
    now rewrite rev_involutive. }
  assert (P : forall k l, shown_after k (Some l) = l \/ shown_after k (Some l) = rev l).
  { intros k. induction k as [k IH] using (well_founded_induction lt_wf). intros l.
    destruct k as [|[|k]].
    - right. cbn [shown_after]. now rewrite R.
    - left. cbn [shown_after]. rewrite R. cbn [snd fst]. rewrite R. cbn [fst].
      apply rev_involutive.
    - rewrite S2. apply IH. lia. }
  split; [cbn [shown_after]; now rewrite R|].
  split.
  { cbn [shown_after]. rewrite R. cbn [snd fst]. rewrite R. cbn [fst].
    apply rev_involutive. }
  split; [apply S2|].
  destruct (P n entries) as [E|E]; rewrite E; split.
  - reflexivity.
  - reflexivity.
  - intros e. symmetry. apply in_rev.
  - apply length_rev.
Qed.

End WaterLogOrder.

(** ** The categories follow the bmi *)

Section BMIOrder.

Import Profile.

(** From [b1 <= b2], a lower bound of [b1] and an upper bound of [b2]
    that lies at or below it: contradiction. *)
Ltac bounds_contra :=
  match goal with
  | H : (?b1 <=? ?b2) = true, G : (?t <=? ?b1) = true, L : (?b2 <? ?t') = true |- _ =>
      let F := fresh in
      pose proof (leb_ltb_trans t b1 t' G (leb_ltb_trans b1 b2 t' H L)) as F;
      vm_compute in F; discriminate F
  end.

(** X10: the classification is monotone: a higher bmi never gets a
    category of a lower range. *)
Theorem getBMICategory_monotone (b1 b2 : number) :
  (b1 <=? b2) = true ->
  (severity (getBMICategory b1) <= severity (getBMICategory b2))%nat.
Proof.
  intros H. destruct (leb_not_nan _ _ H) as [N1 N2].
  destruct (getBMICategory_cases b1 N1)
    as [[L1 E1]|[[G1 [L1 E1]]|[[G1 [L1 E1]]|[G1 E1]]]];
  destruct (getBMICategory_cases b2 N2)
    as [[L2 E2]|[[G2 [L2 E2]]|[[G2 [L2 E2]]|[G2 E2]]]];
  rewrite E1, E2; try (vm_compute; lia); bounds_contra.
Qed.

Lemma getBMICategory_monotone_witness :
  (severity (getBMICategory 21.5%float) <= severity (getBMICategory 27%float))%nat.
Proof.
  exact (getBMICategory_monotone 21.5 27 eq_refl).
Defined.

End BMIOrder.

(** ** Logging an activity *)

Section ActivityForm.

Import Activity.

(** [parseInt] on the kinds of text the numeric fields can hold. *)
Lemma parseInt_examples :
  map parseInt ["30"; "12.7"; " 42abc"; "-7"; "0x1F"; "007"; "1e3"]%string
    = [30; 12; 42; -7; 31; 7; 1] /\
  map (fun s => is_nan (parseInt s)) [""; "abc"; "0x"; "-"]%string
    = [true; true; true; true].
Proof. repeat split. Qed.

(** [x || 0] is a number, and is positive exactly when [x] is. *)
Lemma or_else_0_not_nan (x : number) : is_nan (or_else (Num x) 0) = false.
Proof.
  unfold or_else, truthy. destruct (is_nan x) eqn:N.
  - now rewrite orb_true_r.
  - rewrite orb_false_r. now destruct (is_zero x).
Qed.

Lemma or_else_0_positive (x : number) :
  (0 <? or_else (Num x) 0) = (0 <? x).
Proof.
  unfold or_else. destruct (truthy x) eqn:T; [reflexivity|].
  destruct (0 <? x) eqn:P; [|reflexivity].
  rewrite (truthy_pos _ P) in T. discriminate.
Qed.

(** X11: once a duration is entered the activity is sent, and its
    optional figures (distance, calories, steps, heart rate) are never
    NaN: a field left blank or without a number in it is sent as 0.  The
    duration itself is sent as parsed.  The distance line of the
    activity card is shown for the sent distance exactly when the typed
    distance parses to a positive number. *)
Theorem handleAddActivity_optional_fields (ok : bool) (st : State) :
  duration_minutes (formData st) <> ""%string ->
  exists body,
    posted (snd (handleAddActivity ok st)) = Some body /\
    body_duration_minutes body = parseInt (duration_minutes (formData st)) /\
    is_nan (body_distance_km body) = false /\
    is_nan (body_calories_burned body) = false /\
    is_nan (body_steps body) = false /\
    is_nan (body_heart_rate_avg body) = false /\
    (is_nan (parseFloat (distance_km (formData st))) = true -> body_distance_km body = 0) /\
    (is_nan (parseInt (calories_burned (formData st))) = true ->
     body_calories_burned body = 0) /\
    (is_nan (parseInt (steps (formData st))) = true -> body_steps body = 0) /\
    (is_nan (parseInt (heart_rate_avg (formData st))) = true ->
     body_heart_rate_avg body = 0) /\
    distance_line_shown (body_distance_km body)
      = (0 <? parseFloat (distance_km (formData st))).
Proof.
  intros Hd. unfold handleAddActivity.
  destruct (String.eqb_spec (duration_minutes (formData st)) "") as [E|_];
    [contradiction|].
  assert (Z : forall x, is_nan x = true -> or_else (Num x) 0 = 0).
  { intros x N. unfold or_else. now rewrite (truthy_nan _ N). }
  eexists. split; [destruct ok; reflexivity|]. cbn.
  split; [reflexivity|].
  repeat (split; [apply or_else_0_not_nan|]).
  repeat (split; [apply Z|]).
  apply or_else_0_positive.
Qed.

Lemma handleAddActivity_optional_fields_witness :
  exists body,
    posted (snd (handleAddActivity true
      {| selectedDate := "2024-05-01";
         modalVisible := true;
         formData := {| activity_type := "running";
                        duration_minutes := "30";
                        distance_km := "";
                        calories_burned := "about 200";
                        steps := "4200";
                        heart_rate_avg := "";
                        notes := "" |} |})) = Some body /\
    body_duration_minutes body = 30 /\
    body_distance_km body = 0 /\
    body_calories_burned body = 0 /\
    body_steps body = 4200 /\
    distance_line_shown (body_distance_km body) = false.
Proof.
  destruct (handleAddActivity_optional_fields true
      {| selectedDate := "2024-05-01";
         modalVisible := true;
         formData := {| activity_type := "running";
                        duration_minutes := "30";
                        distance_km := "";
                        calories_burned := "about 200";
                        steps := "4200";
                        heart_rate_avg := "";
                        notes := "" |} |})
    as [body [P [D [_ [_ [_ [_ [Zd [Zc [_ [_ L]]]]]]]]]]].
  - discriminate.
  - exists body. split; [exact P|]. split; [exact D|].
    split; [exact (Zd eq_refl)|]. split; [exact (Zc eq_refl)|].
    injection P as <-. split; [reflexivity|exact L].
Defined.

End ActivityForm.

(** ** The authentication provider *)

Section AuthProvider.

Import Auth.

Lemma logout_consistent env s :
  consistent s -> consistent (state_of (logout env s)).
Proof.
  intros C. unfold logout. destruct (removeItem_ok env); [|exact C].
  split; simpl; intros H; now elim H.
Qed.

Lemma fetchUserProfile_consistent env s :
  token s <> None -> consistent s ->
  consistent (state_of (fetchUserProfile env s)).
Proof.
  intros T C. unfold fetchUserProfile. destruct (profile env).
  - destruct C as [_ C2]. split; simpl; auto.
  - now apply logout_consistent.
Qed.

Lemma authenticate_consistent fallback env s :
  consistent s -> consistent (state_of (authenticate fallback env s)).
Proof.
  intros C. unfold authenticate.
  destruct (request env) as [tok|d]; [|exact C].
  destruct (setItem_ok env); [|exact C].
  set (s1 := {| user := user s; token := Some tok;
                loading := loading s; stored := Some tok |}).
  assert (C1 : consistent (state_of (fetchUserProfile env s1))).
  { apply fetchUserProfile_consistent; [discriminate|].
    split; simpl; [discriminate|reflexivity]. }
  now destruct (fetchUserProfile env s1).
Qed.

(** X12: every operation the provider exports keeps the session
    consistent, however the request, the profile fetch and the storage
    calls settle: a user is only ever held together with a token, and a
    held token is the one in storage. *)
Theorem provider_keeps_consistent (env : Env) (s : State) :
  consistent s ->
  consistent (state_of (login env s)) /\
  consistent (state_of (register env s)) /\
  consistent (state_of (logout env s)) /\
  consistent (state_of (refreshUser env s)) /\
  consistent (state_of (loadStoredAuth env s)).
Proof.
  intros C.
  split; [now apply authenticate_consistent|].
  split; [now apply authenticate_consistent|].
  split; [now apply logout_consistent|].
  split.
  - unfold refreshUser. destruct (token s) as [t|] eqn:T; [|exact C].
    destruct (String.eqb t ""); [exact C|].
    apply fetchUserProfile_consistent; [congruence|exact C].
  - destruct s as [u t l st]. unfold loadStoredAuth. cbn [stored user token loading].
    destruct (getItem_ok env); [|exact C].
    destruct st as [tk|]; [|exact C].
    destruct (String.eqb tk ""); [exact C|].
    assert (F : consistent (state_of (fetchUserProfile env
                  {| user := u; token := Some tk; loading := l; stored := Some tk |}))).
    { apply fetchUserProfile_consistent; [discriminate|].
      split; simpl; [discriminate|reflexivity]. }
    exact F.
Qed.

Lemma provider_keeps_consistent_witness :
  consistent (state_of (login
    {| request := Resolved "t0k3n"%string;
       profile := Rejected None;
       getItem_ok := true; setItem_ok := true; removeItem_ok := false |}
    {| user := None; token := None; loading := false; stored := None |})).
Proof.
  refine (proj1 (provider_keeps_consistent _ _ _)).
  split; simpl; [intros H; now elim H|intros H; now elim H].
Defined.

(** X13: what a sign-in can end in.  When [login] fulfils, either the
    request and the profile fetch both succeeded and the user is signed
    in with the new token, which is also the stored one, or the profile
    fetch failed and nobody is signed in and nothing is stored: [login]
    fulfils all the same.  When the request itself is rejected, [login]
    throws the server's detail, or "Login failed" without one, and the
    state is as before. *)
Theorem login_outcomes (env : Env) (s : State) :
  (forall s', login env s = Fulfilled s' ->
     (exists access_token u,
        request env = Resolved access_token /\ profile env = Resolved u /\
        user s' = Some u /\ token s' = Some access_token /\
        stored s' = Some access_token) \/
     (exists access_token detail,
        request env = Resolved access_token /\ profile env = Rejected detail /\
        user s' = None /\ token s' = None /\ stored s' = None)) /\
  (forall detail, request env = Rejected detail ->
     login env s = Threw (Some (error_message detail "Login failed")) s) /\
  (forall message s', login env s = Threw message s' ->
     message <> None /\ user s' = user s).
Proof.
  unfold login, authenticate, fetchUserProfile, logout.
  split; [|split].
  - intros s' H. destruct (request env) as [tok|d]; [|discriminate].
    destruct (setItem_ok env); [|discriminate].
    destruct (profile env) as [u|d].
    + injection H as <-. left. exists tok, u. repeat split.
    + destruct (removeItem_ok env); [|discriminate].
      injection H as <-. right. exists tok, d. repeat split.
  - intros detail ->. reflexivity.
  - intros message s' H. destruct (request env) as [tok|d].
    + destruct (setItem_ok env).
      * destruct (profile env) as [u|d]; [discriminate|].
        destruct (removeItem_ok env); [discriminate|].
        injection H as <- <-. split; [discriminate|reflexivity].
      * injection H as <- <-. split; [discriminate|reflexivity].
    + injection H as <- <-. split; [discriminate|reflexivity].
Qed.

Lemma login_outcomes_witness :
  login {| request := Rejected (Some "Invalid credentials"%string);
           profile := Rejected None;
           getItem_ok := true; setItem_ok := true; removeItem_ok := true |}
        {| user := None; token := None; loading := false; stored := None |}
  = Threw (Some "Invalid credentials"%string)
          {| user := None; token := None; loading := false; stored := None |}.
Proof.
  exact (proj1 (proj2 (login_outcomes
           {| request := Rejected (Some "Invalid credentials"%string);
              profile := Rejected None;
              getItem_ok := true; setItem_ok := true; removeItem_ok := true |}
           {| user := None; token := None; loading := false; stored := None |}))
         (Some "Invalid credentials"%string) eq_refl).
Defined.

(** X14: start-up with a stored token.  [loadStoredAuth] never throws
    and always clears [loading].  The session is restored when the
    profile fetch succeeds; when it fails the user is signed out and the
    stored token is erased, unless the removal itself fails, which
    leaves the token in place without a user. *)
Theorem loadStoredAuth_outcomes (env : Env) (s : State) (storedToken : string) :
  user s = None -> token s = None ->
  stored s = Some storedToken -> storedToken <> ""%string ->
  getItem_ok env = true ->
  exists s',
    loadStoredAuth env s = Fulfilled s' /\ loading s' = false /\
    (forall u, profile env = Resolved u ->
       user s' = Some u /\ token s' = Some storedToken /\
       stored s' = Some storedToken) /\
    (forall detail, profile env = Rejected detail -> removeItem_ok env = true ->
       user s' = None /\ token s' = None /\ stored s' = None) /\
    (forall detail, profile env = Rejected detail -> removeItem_ok env = false ->
       user s' = None /\ token s' = Some storedToken /\
       stored s' = Some storedToken).
Proof.
  intros Hu Ht Hs Hn Hg. unfold loadStoredAuth. rewrite Hg, Hs.
  destruct (String.eqb_spec storedToken "") as [E|_]; [contradiction|].
  eexists. split; [reflexivity|]. split; [reflexivity|].
  unfold fetchUserProfile, logout. cbn [token user stored loading].
  repeat split; intros; repeat match goal with
    | H : profile env = _ |- _ => rewrite H; clear H
    | H : removeItem_ok env = _ |- _ => rewrite H; clear H
    end; simpl; auto; discriminate.
Qed.

Lemma loadStoredAuth_outcomes_witness :
  exists s',
    loadStoredAuth
      {| request := Rejected None; profile := Rejected None;
         getItem_ok := true; setItem_ok := true; removeItem_ok := true |}
      {| user := None; token := None; loading := true; stored := Some "t0k3n"%string |}
      = Fulfilled s' /\
    loading s' = false /\ user s' = None /\ token s' = None /\ stored s' = None.
Proof.
  destruct (loadStoredAuth_outcomes
      {| request := Rejected None; profile := Rejected None;
         getItem_ok := true; setItem_ok := true; removeItem_ok := true |}
      {| user := None; token := None; loading := true; stored := Some "t0k3n"%string |}
      "t0k3n"%string eq_refl eq_refl eq_refl) as [s' [E [L [_ [R _]]]]].
  - discriminate.
  - reflexivity.
  - exists s'. split; [exact E|]. split; [exact L|].
    exact (R None eq_refl eq_refl).
Defined.

End AuthProvider.

(** ** Screens that go through the provider *)

Section ThroughProvider.

(** X15: registration.  With one of the six required fields empty the
    handler only shows an alert: nothing is sent and neither state
    changes.  Otherwise the form is sent with its age, height and weight
    parsed, [loading] ends cleared, and the screen moves to the
    dashboard exactly when [register] fulfils, which includes the case
    where the profile fetch failed and nobody is signed in. *)
Theorem handleRegister_outcomes (env : Auth.Env) (st : Register.State)
    (auth : Auth.State) :
  (Register.missing_field (Register.formData st) = true ->
   Register.handleRegister env st auth
     = (st, auth, [Register.Alert "Error" "Please fill in all fields"])) /\
  (Register.missing_field (Register.formData st) = false ->
   let '(st', auth', effs) := Register.handleRegister env st auth in
   Register.loading st' = false /\
   Register.formData st' = Register.formData st /\
   auth' = Auth.state_of (Auth.register env auth) /\
   (exists userData rest,
      effs = Register.RegisterRequest userData :: rest /\
      Register.data_age userData = parseInt (Register.age (Register.formData st)) /\
      Register.data_height userData
        = parseFloat (Register.height (Register.formData st)) /\
      Register.data_weight userData
        = parseFloat (Register.weight (Register.formData st))) /\
   (In (Register.RouterReplace "/(tabs)/dashboard") effs <->
    exists s, Auth.register env auth = Auth.Fulfilled s) /\
   (In (Register.RouterReplace "/(tabs)/dashboard") effs ->
    (Auth.user auth' <> None /\ Auth.token auth' <> None) \/
    (Auth.user auth' = None /\ Auth.token auth' = None /\ Auth.stored auth' = None))).
Proof.
  unfold Register.handleRegister. split; intros M; rewrite M; [reflexivity|].
  destruct (Auth.register env auth) as [s|m s] eqn:R.
  - split; [reflexivity|]. split; [reflexivity|]. split; [reflexivity|].
    split. { eexists _, _. split; [reflexivity|]. repeat split. }
    split. { split; intros _; [eauto|right; left; reflexivity]. }
    intros _. revert R.
    unfold Auth.register, Auth.authenticate, Auth.fetchUserProfile, Auth.logout.
    destruct (Auth.request env) as [tok|d]; [|discriminate].
    destruct (Auth.setItem_ok env); [|discriminate].
    destruct (Auth.profile env) as [u|d].
    + intros H. injection H as <-. left. split; discriminate.
    + destruct (Auth.removeItem_ok env); [|discriminate].
      intros H. injection H as <-. right. repeat split.
  - split; [reflexivity|]. split; [reflexivity|]. split; [reflexivity|].
    split. { eexists _, _. split; [reflexivity|]. repeat split. }
    split.
    { split; [intros [H|[H|[]]]; discriminate|intros [s' H]; discriminate]. }
    intros [H|[H|[]]]; discriminate.
Qed.

Lemma handleRegister_outcomes_witness :
  Register.handleRegister backend_down form_without_age signed_out
  = (form_without_age, signed_out,
     [Register.Alert "Error" "Please fill in all fields"]).
Proof.
  exact (proj1 (handleRegister_outcomes backend_down form_without_age signed_out)
               eq_refl).
Defined.

(** X16: updating the profile.  After a successful request the user
    held by the provider is whatever the refresh brings: the server's
    profile, whose bmi then decides the category on the screen, or, when
    the profile fetch fails, nobody: the user is signed out, no category
    is shown, and the success alert is shown all the same. *)
Theorem handleUpdateProfile_refresh (env : Auth.Env) (st : ProfileEdit.State)
    (auth : Auth.State) (t : string) :
  Auth.token auth = Some t -> t <> ""%string ->
  (forall u, Auth.profile env = Auth.Resolved u ->
     let '(st', auth', effs) := ProfileEdit.handleUpdateProfile true env st auth in
     ProfileEdit.editModalVisible st' = false /\
     Auth.user auth' = Some u /\
     Profile.bmiCategory (Auth.user auth')
       = Some (Profile.getBMICategory (Profile.bmi u)) /\
     In (ProfileEdit.Alert "Success" "Profile updated successfully!") effs) /\
  (forall detail, Auth.profile env = Auth.Rejected detail ->
     Auth.removeItem_ok env = true ->
     let '(st', auth', effs) := ProfileEdit.handleUpdateProfile true env st auth in
     Auth.user auth' = None /\ Auth.token auth' = None /\ Auth.stored auth' = None /\
     Profile.bmiCategory (Auth.user auth') = None /\
     In (ProfileEdit.Alert "Success" "Profile updated successfully!") effs) /\
  (let '(st', auth', effs) := ProfileEdit.handleUpdateProfile false env st auth in
   st' = st /\ auth' = auth /\
   In (ProfileEdit.Alert "Error" "Failed to update profile") effs).
Proof.
  intros Ht Hn.
  unfold ProfileEdit.handleUpdateProfile, Auth.refreshUser, Auth.fetchUserProfile,
    Auth.logout.
  rewrite Ht. destruct (String.eqb_spec t "") as [E|_]; [contradiction|].
  split; [|split].
  - intros u ->. simpl. repeat split. right. left. reflexivity.
  - intros detail -> ->. simpl. repeat split. right. left. reflexivity.
  - simpl. repeat split. right. right. left. reflexivity.
Qed.

Lemma handleUpdateProfile_refresh_witness :
  let '(st', auth', effs) :=
    ProfileEdit.handleUpdateProfile true backend_down editing signed_in in
  Auth.user auth' = None /\ Auth.token auth' = None /\ Auth.stored auth' = None /\
  Profile.bmiCategory (Auth.user auth') = None /\
  In (ProfileEdit.Alert "Success" "Profile updated successfully!") effs.
Proof.
  refine (proj1 (proj2 (handleUpdateProfile_refresh backend_down editing signed_in
                          "t0k3n"%string eq_refl _)) None eq_refl eq_refl).
  discriminate.
Defined.

End ThroughProvider.

(** ** Remaining calories once the target is reached *)

Section TargetReached.

Lemma iter_xO_value (m d : positive) :
  Z.pos (Pos.iter xO m d) = (Z.pos m * 2 ^ Z.pos d)%Z.
Proof.
  induction d as [|d IH] using Pos.peano_ind.
  - simpl. lia.
  - rewrite Pos.iter_succ, Pos2Z.inj_succ, Z.pow_succ_r by lia.
    change (Z.pos (Pos.iter xO m d)~0) with (2 * Z.pos (Pos.iter xO m d))%Z. lia.
Qed.

(** Aligning a mantissa to a smaller exponent multiplies it by the
    power of two between the exponents. *)
Lemma shl_align_value (m : positive) (e ez : Z) :
  (ez <= e)%Z ->
  Z.pos (fst (shl_align m e ez)) = (Z.pos m * 2 ^ (e - ez))%Z.
Proof.
  intros H. unfold shl_align.
  destruct (ez - e)%Z as [|d|d] eqn:D; try lia.
  - replace (e - ez)%Z with 0%Z by lia. simpl. lia.
  - cbn [fst]. rewrite iter_xO_value. f_equal. f_equal. lia.
Qed.

(** For two valid positive finite values in the order of [SFcompare],
    the aligned mantissas are in the same order. *)
Lemma aligned_le (m1 : positive) (e1 : Z) (m2 : positive) (e2 : Z) :
  bounded prec emax m1 e1 = true -> bounded prec emax m2 e2 = true ->
  lexcmp e1 m1 e2 m2 <> Gt ->
  (Z.pos (fst (shl_align m1 e1 (Z.min e1 e2)))
   <= Z.pos (fst (shl_align m2 e2 (Z.min e1 e2))))%Z.
Proof.
  unfold bounded, canonical_mantissa, fexp, SpecFloat.emin, prec, emax.
  rewrite !andb_true_iff, !Z.eqb_eq. intros [C1 _] [C2 _] L.
  rewrite !shl_align_value by lia.
  pose proof (digits2_pos_bounds m1) as B1.
  pose proof (digits2_pos_bounds m2) as B2.
  destruct (lexcmp e1 m1 e2 m2) eqn:E.
  - apply lexcmp_Eq in E. destruct E as [-> ->]. lia.
  - apply lexcmp_Lt in E. destruct E as [E|[-> E]].
    + rewrite Z.min_l by lia. rewrite Z.sub_diag, Z.pow_0_r.
      assert (D2 : Z.pos (digits2_pos m2) = 53%Z) by lia.
      assert (D1 : (Z.pos (digits2_pos m1) <= 53)%Z) by lia.
      rewrite D2 in B2. change (2 ^ (53 - 1))%Z with 4503599627370496%Z in B2.
      assert (P1 : (Z.pos m1 < 2 ^ 53)%Z).
      { eapply Z.lt_le_trans; [apply B1|]. apply Z.pow_le_mono_r; lia. }
      change (2 ^ 53)%Z with 9007199254740992%Z in P1.
      assert (P2 : (2 ^ 1 <= 2 ^ (e2 - e1))%Z) by (apply Z.pow_le_mono_r; lia).
      change (2 ^ 1)%Z with 2%Z in P2. nia.
    + rewrite Z.min_id, Z.sub_diag, Z.pow_0_r. lia.
  - now elim L.
Qed.

(** The difference of two positive finite values in the order of
    [SFcompare] is a zero or negative. *)
Lemma SFsub_le (m1 : positive) (e1 : Z) (m2 : positive) (e2 : Z) :
  bounded prec emax m1 e1 = true -> bounded prec emax m2 e2 = true ->
  lexcmp e1 m1 e2 m2 <> Gt ->
  let r := SFsub prec emax (S754_finite false m1 e1) (S754_finite false m2 e2) in
  signed true r \/ r = S754_zero false.
Proof.
  intros B1 B2 L. pose proof (aligned_le m1 e1 m2 e2 B1 B2 L) as A.
  cbn [SFsub cond_Zopp]. unfold binary_normalize.
  destruct (Z.pos (fst (shl_align m1 e1 (Z.min e1 e2)))
            - Z.pos (fst (shl_align m2 e2 (Z.min e1 e2))))%Z as [|d|d] eqn:D.
  - now right.
  - lia.
  - left. unfold binary_round.
    match goal with |- context [shl_align ?m ?e ?e'] =>
      destruct (shl_align m e e') as [mz ez] end.
    apply binary_round_aux_signed. lia.
Qed.

Lemma Math_max_0_nonpos (x : number) :
  signed true (Prim2SF x) \/ Prim2SF x = S754_zero false ->
  Math_max 0 x = 0.
Proof.
  intros H.
  assert (N : is_nan x = false).
  { apply is_nan_false. intros E. rewrite E in H. destruct H; [contradiction|discriminate]. }
  assert (P : (0 <? x) = false).
  { apply not_true_is_false. rewrite ltb_Lt.
    change (Prim2SF 0) with (S754_zero false).
    destruct H as [H|H]; [|rewrite H; discriminate].
    destruct (Prim2SF x) as [s|s| |s m e]; simpl in H; try contradiction; subst;
      discriminate. }
  unfold Math_max. rewrite is_nan_0, N, P. simpl.
  destruct (x <? 0); reflexivity.
Qed.

(** X17: for every signed-in user and every dashboard state with a
    [food] part, once the calories logged reach the daily target, or
    exceed it, the Remaining figure is exactly 0. *)
Theorem remaining_zero_at_target (u : Profile.User) (d : Dashboard.DashboardData)
    (f : Dashboard.FoodPart) (total : number) :
  Dashboard.food d = Some f -> Dashboard.total_kcal f = Num total ->
  (0 <? Profile.daily_calorie_target u) = true ->
  (Profile.daily_calorie_target u <? infinity) = true ->
  (Profile.daily_calorie_target u <=? total) = true ->
  Dashboard.remaining (Some u) (Some d) = 0.
Proof.
  set (target := Profile.daily_calorie_target u).
  intros Hf Hk Hpos Hfin Hle.
  assert (Htot : (0 <? total) = true) by exact (ltb_leb_trans _ _ _ Hpos Hle).
  rewrite (remaining_target_present u _ (truthy_pos _ Hpos)).
  rewrite (total_present d f total Hf Hk (truthy_pos _ Htot)). fold target.
  apply Math_max_0_nonpos. rewrite sub_spec.
  pose proof (Prim2SF_valid target) as V1.
  pose proof (Prim2SF_valid total) as V2.
  apply ltb_0_positive in Hpos. apply ltb_0_positive in Htot.
  apply ltb_infinity in Hfin. apply leb_Le in Hle.
  destruct (Prim2SF target) as [s1|[|]| |[|] m1 e1]; simpl in Hpos;
    try contradiction.
  destruct (Prim2SF total) as [s2|[|]| |[|] m2 e2]; simpl in Htot;
    try contradiction.
  - left. reflexivity.
  - apply SFsub_le; try assumption.
    rewrite SFcompare_finite in Hle.
    intros G. rewrite G in Hle. destruct Hle; discriminate.
Qed.

Lemma remaining_zero_at_target_witness :
  Dashboard.remaining
    (Some {| Profile.bmi := 27.4; Profile.daily_calorie_target := 2000 |})
    (Some {| Dashboard.user :=
               Some {| Dashboard.daily_calorie_target := Num 2000 |};
             Dashboard.food := Some {| Dashboard.total_kcal := Num 2350.5 |};
             Dashboard.water :=
               Some {| Dashboard.total_intake := Num 750;
                       Dashboard.goal_ml := Num 2000 |} |}) = 0.
Proof.
  exact (remaining_zero_at_target
           {| Profile.bmi := 27.4; Profile.daily_calorie_target := 2000 |}
           {| Dashboard.user :=
                Some {| Dashboard.daily_calorie_target := Num 2000 |};
              Dashboard.food := Some {| Dashboard.total_kcal := Num 2350.5 |};
              Dashboard.water :=
                Some {| Dashboard.total_intake := Num 750;
                        Dashboard.goal_ml := Num 2000 |} |}
           {| Dashboard.total_kcal := Num 2350.5 |} 2350.5
           eq_refl eq_refl eq_refl eq_refl eq_refl).
Defined.

End TargetReached.
